(** * nextjs-auth0: transient cookie store, logout handler and login state

    A shallow embedding of
    - [src/auth0-session/transient-store.ts]  (class [TransientStore]),
    - [src/auth0-session/handlers/logout.ts]  ([logoutHandlerFactory]),
    together with a model of the login handler, of which the repository
    snapshot only holds the tests.

    Asynchronous methods are embedded as computations in a state-and-exception
    monad: an [await] is a bind, a rejected promise is [Thrown].  Mutable
    collaborators (the response object, the private key cache of the store,
    the session cache) live in the threaded state; calls on them are recorded
    in call order. *)

From Stdlib Require Import String Ascii List ZArith Lia Bool.
From stdpp Require Import base option list strings gmap.

Open Scope string_scope.
Open Scope list_scope.

(** ** Completions and the state-and-exception monad *)

(** How an [async] function settles: it returns a value or throws an
    [Error] (carried here by its message). *)
Inductive outcome (A : Type) : Type :=
| Returned (a : A)
| Thrown (e : string).
Arguments Returned {A} a.
Arguments Thrown {A} e.

Module Eff.

Definition M (S A : Type) : Type := S -> outcome A * S.

Definition ret {S A} (a : A) : M S A := fun s => (Returned a, s).

Definition bind {S A B} (m : M S A) (k : A -> M S B) : M S B :=
  fun s =>
    match m s with
    | (Returned a, s') => k a s'
    | (Thrown e, s') => (Thrown e, s')
    end.

(** Awaiting a pure collaborator that may reject. *)
Definition await {S A} (o : outcome A) : M S A := fun s => (o, s).

Definition get {S} : M S S := fun s => (Returned s, s).
Definition modify {S} (f : S -> S) : M S unit := fun s => (Returned tt, f s).

(** [try m catch h]. *)
Definition catch {S A} (m : M S A) (h : string -> M S A) : M S A :=
  fun s =>
    match m s with
    | (Returned a, s') => (Returned a, s')
    | (Thrown e, s') => h e s'
    end.

End Eff.

Notation "'let!' x ':=' m 'in' k" := (Eff.bind m (fun x => k))
  (at level 10, x name, m at level 100, k at level 200).
Notation "m ';;;' k" := (Eff.bind m (fun _ => k))
  (at level 100, k at level 200, right associativity).

(** JavaScript truthiness of a [string | undefined]: [undefined] and the
    empty string are falsy. *)
Definition truthy (v : option string) : bool :=
  match v with
  | Some s => negb (String.eqb s "")
  | None => false
  end.

(** [a || b] on a [string | undefined] left operand and a string default. *)
Definition or_else (a : option string) (b : string) : string :=
  match a with
  | Some s => if truthy a then s else b
  | None => b
  end.

(** ** The HTTP surface ([./http]) *)

Inductive SameSite : Type :=
| SameSiteBool (b : bool)
| SameSiteLax
| SameSiteStrict
| SameSiteNone.

Global Instance SameSite_eq_dec : EqDecision SameSite.
Proof. solve_decision. Defined.

(** [config.session.cookie], as far as the store reads it. *)
Record CookieConfig : Type := {
  domain : option string;
  path : option string;
  secure : option bool
}.

(** The attribute object handed to [res.setCookie]; an absent property is
    [None]. *)
Record CookieAttrs : Type := {
  attr_httpOnly : option bool;
  attr_secure : option bool;
  attr_domain : option string;
  attr_path : option string;
  attr_sameSite : option SameSite
}.

(** Calls received by the [Auth0Response] object, oldest first. *)
Inductive ResCall : Type :=
| SetCookie (name value : string) (attrs : CookieAttrs)
| ClearCookie (name : string) (cfg : CookieConfig)
| Redirect (url : string).

Global Instance CookieConfig_eq_dec : EqDecision CookieConfig.
Proof. solve_decision. Defined.
Global Instance CookieAttrs_eq_dec : EqDecision CookieAttrs.
Proof. solve_decision. Defined.
Global Instance ResCall_eq_dec : EqDecision ResCall.
Proof. solve_decision. Defined.

(** [Auth0Request]: only [getCookies()] is used. *)
Record Auth0Request : Type := {
  getCookies : gmap string string
}.

(** ** Configuration ([./config]) *)

Inductive Secret : Type :=
| SecretString (s : string)
| SecretArray (l : list string).

(** The fields of [Config] that the modelled code reads;
    [session_cookie] is [config.session.cookie] and [postLogoutRedirect] is
    [config.routes.postLogoutRedirect]. *)
Record Config : Type := {
  secret : Secret;
  legacySameSiteCookie : bool;
  session_cookie : CookieConfig;
  baseURL : string;
  idpLogout : bool;
  postLogoutRedirect : string
}.

Record StoreOptions : Type := {
  sameSite : option SameSite;
  value : string
}.

(** ** TransientStore *)

Module TransientStore.

(** The store object ([this.keys]) together with the response it writes
    to. *)
Record World (Key : Type) : Type := {
  keys : option (list Key);
  res : list ResCall
}.
Arguments keys {Key} w.
Arguments res {Key} w.
Arguments Build_World {Key} keys res.

Definition set_keys {Key} (ks : list Key) (w : World Key) : World Key :=
  {| keys := Some ks; res := res w |}.

Definition call {Key} (c : ResCall) (w : World Key) : World Key :=
  {| keys := keys w; res := res w ++ [c] |}.

(** [new TransientStore(config)] writing to a fresh response. *)
Definition fresh {Key} : World Key := {| keys := None; res := [] |}.

Section Store.
Context {Key : Type}.

(** The imported helpers: [signing] of [./utils/hkdf] and the two
    functions of [./utils/signed-cookies].  A destructured key of an
    empty array is [undefined], hence the [option Key] argument. *)
Variable signing : string -> Key.
Variable generateCookieValue : string -> string -> option Key -> outcome string.
Variable getCookieValue : string -> option string -> list Key -> option string.

Variable config : Config.

Definition secrets : list string :=
  match secret config with
  | SecretArray l => l
  | SecretString s => [s]
  end.

(** [getKeys]: the keys are derived on first use and cached in
    [this.keys]. *)
Definition getKeys : Eff.M (World Key) (list Key) :=
  let! w := Eff.get in
  match keys w with
  | Some ks => Eff.ret ks
  | None =>
      let ks := map signing secrets in
      Eff.modify (set_keys ks) ;;;
      Eff.ret ks
  end.

Definition setCookie (name v : string) (attrs : CookieAttrs)
  : Eff.M (World Key) unit :=
  Eff.modify (call (SetCookie name v attrs)).

Definition clearCookie (name : string) (cfg : CookieConfig)
  : Eff.M (World Key) unit :=
  Eff.modify (call (ClearCookie name cfg)).

Definition fallbackName (key : string) : string := "_" +:+ key.

(** [basicAttr] of [save]. *)
Definition basicAttr : CookieAttrs :=
  let cookie := session_cookie config in
  {| attr_httpOnly := Some true;
     attr_secure := secure cookie;
     attr_domain := domain cookie;
     attr_path := path cookie;
     attr_sameSite := None |}.

(** The attributes of the primary cookie:
    [{ ...basicAttr, sameSite, secure: isSameSiteNone ? true : basicAttr.secure }]. *)
Definition primaryAttr (sameSite : SameSite) : CookieAttrs :=
  let isSameSiteNone := bool_decide (sameSite = SameSiteNone) in
  {| attr_httpOnly := attr_httpOnly basicAttr;
     attr_secure :=
       if isSameSiteNone then Some true else attr_secure basicAttr;
     attr_domain := attr_domain basicAttr;
     attr_path := attr_path basicAttr;
     attr_sameSite := Some sameSite |}.

(** [save(key, _req, res, { sameSite = 'none', value })]; the request is
    not used, the response is the one of the world. *)
Definition save (key : string) (opts : StoreOptions)
  : Eff.M (World Key) string :=
  let sameSite := default SameSiteNone (sameSite opts) in
  let value := value opts in
  let isSameSiteNone := bool_decide (sameSite = SameSiteNone) in
  let! ks := getKeys in
  let signingKey := head ks in
  (let! cookieValue := Eff.await (generateCookieValue key value signingKey) in
   setCookie key cookieValue (primaryAttr sameSite)) ;;;
  (if isSameSiteNone && legacySameSiteCookie config then
     let! cookieValue :=
       Eff.await (generateCookieValue (fallbackName key) value signingKey) in
     setCookie (fallbackName key) cookieValue basicAttr
   else Eff.ret tt) ;;;
  Eff.ret value.

(** [read(key, req, res)]. *)
Definition read (key : string) (req : Auth0Request)
  : Eff.M (World Key) (option string) :=
  let cookies := getCookies req in
  let cookie := cookies !! key in
  let cookieConfig := session_cookie config in
  let! verifyingKeys := getKeys in
  let value := getCookieValue key cookie verifyingKeys in
  clearCookie key cookieConfig ;;;
  let! value :=
    if legacySameSiteCookie config then
      let fallbackKey := fallbackName key in
      let value :=
        if negb (truthy value) then
          let fallbackCookie := cookies !! fallbackKey in
          getCookieValue fallbackKey fallbackCookie verifyingKeys
        else value in
      clearCookie fallbackKey cookieConfig ;;;
      Eff.ret value
    else Eff.ret value in
  Eff.ret value.

End Store.

End TransientStore.

(** ** The signed-cookie codec *)

Module SignedCookies.

Definition separator : ascii := "."%char.

(** Modelled from the spec: how a signed cookie value is taken apart
    (part of [./utils/signed-cookies], which is not among the sources at
    hand): at its first separator. *)
Fixpoint split_sep (s : string) : option (string * string) :=
  match s with
  | EmptyString => None
  | String c r =>
      if Ascii.eqb c separator then Some (EmptyString, r)
      else
        match split_sep r with
        | Some (a, b) => Some (String c a, b)
        | None => None
        end
  end.

Fixpoint separator_free (s : string) : bool :=
  match s with
  | EmptyString => true
  | String c r => negb (Ascii.eqb c separator) && separator_free r
  end.

Inductive Decoded (Key : Type) : Type :=
| Value (v : string) (k : Key)
| InvalidSignature
| Malformed.
Arguments Value {Key} v k.
Arguments InvalidSignature {Key}.
Arguments Malformed {Key}.

Section Codec.
Context {Key : Type}.

(** The primitives the codec is built from: the message-authentication
    tag of a key over a cookie name and a serialized value, and the
    serialization of a payload. *)
Variable mac : Key -> string -> string -> string.
Variable serialize : string -> string.
Variable deserialize : string -> option string.

(** Modelled from the spec: [encode] of the Signed Cookie Codec
    ([generateCookieValue] of [./utils/signed-cookies], which is not part
    of the sources at hand).  The cookie value is the serialized payload,
    a separator and the tag computed over the cookie name and the
    serialized payload. *)
Definition encode (name v : string) (key : Key) : string :=
  let sv := serialize v in
  sv +:+ String separator (mac key name sv).

(** Modelled from the spec: [decode] of the Signed Cookie Codec
    ([getCookieValue] of [./utils/signed-cookies], not part of the sources
    at hand).  The tag is recomputed with each candidate key in order
    until one matches; the deserialized value is returned on the first
    match (the matching key is kept for reference), [InvalidSignature] if
    no key matches, [Malformed] if the value cannot be split or
    deserialized. *)
Definition decode (name cookieValue : string) (keys : list Key)
  : Decoded Key :=
  match split_sep cookieValue with
  | None => Malformed
  | Some (sv, tag) =>
      match List.find (fun k => String.eqb (mac k name sv) tag) keys with
      | None => InvalidSignature
      | Some k =>
          match deserialize sv with
          | Some v => Value v k
          | None => Malformed
          end
      end
  end.

(** Modelled from the spec: [generateCookieValue], i.e. [encode] as the
    transient store calls it.  The spec's secret set is never empty; with
    an [undefined] key there is nothing to sign with and the call
    rejects. *)
Definition generateCookieValue (name v : string) (key : option Key)
  : outcome string :=
  match key with
  | Some k => Returned (encode name v k)
  | None => Thrown "Key must be one of type Uint8Array"
  end.

(** Modelled from the spec: [getCookieValue], i.e. [decode] as the
    transient store calls it.  Both failure outcomes, and a missing
    cookie, collapse to "value absent". *)
Definition getCookieValue (name : string) (cookie : option string)
  (keys : list Key) : option string :=
  match cookie with
  | None => None
  | Some c =>
      match decode name c keys with
      | Value v _ => Some v
      | InvalidSignature | Malformed => None
      end
  end.

End Codec.

End SignedCookies.

(** A symbolic instance of the primitives, used to run the model: a key is
    the term [hkdf(secret)], a tag is the term it is computed from, and the
    payload is stored as it is. *)
Module Symbolic.

Definition signing (s : string) : string := "hkdf(" +:+ s +:+ ")".

Definition mac (key name sv : string) : string :=
  "hs256(" +:+ key +:+ "," +:+ name +:+ "=" +:+ sv +:+ ")".

Definition serialize (v : string) : string := v.
Definition deserialize (sv : string) : option string := Some sv.

Definition generateCookieValue :=
  SignedCookies.generateCookieValue mac serialize.
Definition getCookieValue :=
  SignedCookies.getCookieValue mac deserialize.

Definition save := TransientStore.save signing generateCookieValue.
Definition read := TransientStore.read signing getCookieValue.

End Symbolic.

(** ** The logout handler *)

Module Logout.

Record LogoutOptions : Type := {
  returnTo : option string;
  logoutParams : option (gmap string (option string))
}.

(** Calls made by the handler on its collaborators, oldest first: the
    session cache, the identity-provider client and the response. *)
Inductive Call : Type :=
| IsAuthenticated
| GetIdToken
| Delete
| EndSessionUrl (params : gmap string (option string))
| Res (c : ResCall).

Global Instance Call_eq_dec : EqDecision Call.
Proof. solve_decision. Defined.

Record World (Session : Type) : Type := {
  session : Session;
  calls : list Call
}.
Arguments session {Session} w.
Arguments calls {Session} w.
Arguments Build_World {Session} session calls.

Definition log {Session} (c : Call) (w : World Session) : World Session :=
  {| session := session w; calls := calls w ++ [c] |}.

Definition on_session {Session} (f : Session -> Session) (w : World Session)
  : World Session :=
  {| session := f (session w); calls := calls w |}.

Section Handler.
Context {Session : Type}.

(** [SessionCache]: two observers and [delete]. *)
Variable isAuthenticated : Session -> bool.
Variable getIdToken : Session -> option string.
Variable delete : Session -> Session.

(** [AbstractClient.endSessionUrl]; building the URL may fail. *)
Variable endSessionUrl : gmap string (option string) -> outcome string.

(** [new URL(s)] does not throw, and [urlJoin] of [url-join]. *)
Variable isURL : string -> bool.
Variable urlJoin : string -> string -> string.

Variable config : Config.

Definition sessionCache_isAuthenticated : Eff.M (World Session) bool :=
  Eff.modify (log IsAuthenticated) ;;;
  let! w := Eff.get in
  Eff.ret (isAuthenticated (session w)).

Definition sessionCache_getIdToken : Eff.M (World Session) (option string) :=
  Eff.modify (log GetIdToken) ;;;
  let! w := Eff.get in
  Eff.ret (getIdToken (session w)).

Definition sessionCache_delete : Eff.M (World Session) unit :=
  Eff.modify (log Delete) ;;;
  Eff.modify (on_session delete).

Definition client_endSessionUrl (params : gmap string (option string))
  : Eff.M (World Session) string :=
  Eff.modify (log (EndSessionUrl params)) ;;;
  Eff.await (endSessionUrl params).

Definition redirect (url : string) : Eff.M (World Session) unit :=
  Eff.modify (log (Res (Redirect url))).

(** The default of the [options] parameter, [{}]. *)
Definition noOptions : LogoutOptions :=
  {| returnTo := None; logoutParams := None |}.

(** The URL the handler starts from: [options.returnTo ||
    config.routes.postLogoutRedirect], joined to the base URL when
    [new URL] rejects it. *)
Definition resolveReturnURL (options : LogoutOptions) : string :=
  let returnURL := or_else (returnTo options) (postLogoutRedirect config) in
  if isURL returnURL then returnURL
  else urlJoin (baseURL config) returnURL.

(** The argument of [client.endSessionUrl]:
    [{ ...options.logoutParams, post_logout_redirect_uri, id_token_hint }]. *)
Definition endSessionParams (options : LogoutOptions)
  (returnURL : string) (idToken : option string)
  : gmap string (option string) :=
  <["id_token_hint" := idToken]>
    (<["post_logout_redirect_uri" := Some returnURL]>
       (default ∅ (logoutParams options))).

(** The handler returned by [logoutHandlerFactory(config, client,
    sessionCache)]; the [debug] traces are left out. *)
Definition logoutHandlerFactory (options : option LogoutOptions)
  : Eff.M (World Session) unit :=
  let options := default noOptions options in
  let returnURL := resolveReturnURL options in
  let! isAuthenticated := sessionCache_isAuthenticated in
  if negb isAuthenticated then
    redirect returnURL
  else
    let! idToken := sessionCache_getIdToken in
    sessionCache_delete ;;;
    if negb (idpLogout config) then
      redirect returnURL
    else
      let! returnURL :=
        client_endSessionUrl
          (endSessionParams options returnURL idToken) in
      redirect returnURL.

End Handler.

End Logout.

(** ** The login handler *)

Module Login.

(** Modelled from the spec: what a caller-supplied state hook may return, a
    mapping or a bare scalar. *)
Inductive JsValue : Type :=
| JUndefined
| JBoolean (b : bool)
| JNumber (n : Z)
| JString (s : string)
| JObject (m : gmap string string).

Definition isMapping (v : JsValue) : bool :=
  match v with
  | JObject _ => true
  | _ => false
  end.

Abbreviation LoginState := (gmap string string).

(** Modelled from the spec: the per-call options of the login handler. *)
Record LoginOptions : Type := {
  returnTo : option string;
  authorizationParams : gmap string string;
  getLoginState : option (LoginState -> JsValue)
}.

(** Modelled from the spec: what the handler's tests observe of the
    response. *)
Record HttpResponse : Type := {
  status : Z;
  statusText : string
}.

(** Modelled from the spec: the first occurrence of a parameter in the
    querystring of the login request (the login handler is not among the
    sources at hand); the querystring is given as its [name=value] pairs in
    order of appearance. *)
Fixpoint firstParam (name : string) (query : list (string * string))
  : option string :=
  match query with
  | [] => None
  | (k, v) :: rest => if String.eqb k name then Some v else firstParam name rest
  end.

Definition isAlpha (c : ascii) : bool :=
  let n := nat_of_ascii c in
  (Nat.leb 65 n && Nat.leb n 90) || (Nat.leb 97 n && Nat.leb n 122).

Definition isSchemeChar (c : ascii) : bool :=
  let n := nat_of_ascii c in
  isAlpha c || (Nat.leb 48 n && Nat.leb n 57)
  || Ascii.eqb c "+" || Ascii.eqb c "-" || Ascii.eqb c ".".

Fixpoint schemeRest (s : string) : bool :=
  match s with
  | EmptyString => false
  | String c r =>
      if Ascii.eqb c ":" then true
      else isSchemeChar c && schemeRest r
  end.

(** Modelled from the spec: an absolute URL, which the login handler (not
    among the sources at hand) never trusts in a querystring.  It starts with
    a scheme: a letter, then letters, digits, [+], [-] or [.], then a
    colon. *)
Definition isAbsoluteURL (s : string) : bool :=
  match s with
  | EmptyString => false
  | String c r => isAlpha c && schemeRest r
  end.

(** Modelled from the spec: a path-relative reference, the only form the
    login handler (not among the sources at hand) accepts from a querystring.
    It starts with a single slash. *)
Definition isPathRelative (s : string) : bool :=
  match s with
  | EmptyString => false
  | String c r =>
      Ascii.eqb c "/"
      && match r with
         | EmptyString => true
         | String c' _ => negb (Ascii.eqb c' "/")
         end
  end.

(** Modelled from the spec: the origin of an absolute URL, against which the
    login handler (not among the sources at hand) resolves a relative return
    URL: the scheme, [://] and the authority, up to the path, the query or
    the fragment. *)
Fixpoint authorityOf (s : string) : string :=
  match s with
  | EmptyString => EmptyString
  | String c r =>
      if Ascii.eqb c "/" || Ascii.eqb c "?" || Ascii.eqb c "#"
      then EmptyString
      else String c (authorityOf r)
  end.

Fixpoint originOf (s : string) : string :=
  match s with
  | EmptyString => EmptyString
  | String c r =>
      if Ascii.eqb c ":" then
        match r with
        | String "/" (String "/" rest) => "://" +:+ authorityOf rest
        | _ => String c (originOf r)
        end
      else String c (originOf r)
  end.

Section Handler.
Context {Key : Type}.
Variable signing : string -> Key.
Variable generateCookieValue : string -> string -> option Key -> outcome string.

(** [encodeState], the PKCE S256 transform and the authorization URL of
    the identity-provider client. *)
Variable encodeState : LoginState -> string.
Variable codeChallenge : string -> string.
Variable authorizationUrl : gmap string string -> string.

Variable config : Config.
(** Static configuration of the authorization request. *)
Variable clientID : string.
Variable configParams : gmap string string.

(** The URL of the callback route of the application, the redirect URI of
    the SDK's defaults. *)
Variable callback : string.

(** Modelled from the spec: the authorization parameters in force for a
    login (the login handler is not among the sources at hand): the caller's
    [authorizationParams] over those of the static configuration. *)
Definition mergedParams (options : LoginOptions) : gmap string string :=
  authorizationParams options ∪ configParams.

(** Modelled from the spec: the effective redirect URI of step 4 of the
    return-URL resolution (the login handler is not among the sources at
    hand): the [redirect_uri] the caller passes in [authorizationParams],
    else the one of the static configuration, else the base URL of the
    application. *)
Definition redirectURI (options : LoginOptions) : string :=
  default (baseURL config) (mergedParams options !! "redirect_uri").

(** Modelled from the spec: steps 1 to 4 of the return-URL resolution of
    the login handler, of which only the tests are among the sources at
    hand.  The explicit option wins and is taken as it is (the tests keep
    ['/custom-url'] and ['https://google.com'] unchanged); otherwise the
    first [returnTo] of the querystring is honored only when it is
    path-relative, resolved against the origin of the effective redirect
    URI, and is treated as absent when it is not (the tests expect
    [undefined] for an absolute one); without either, the default
    applies. *)
Definition resolveReturnTo (query : list (string * string))
  (options : LoginOptions) : option string :=
  match returnTo options with
  | Some r => Some r
  | None =>
      match firstParam "returnTo" query with
      | Some dangerousReturnTo =>
          let safeBase := redirectURI options in
          if isPathRelative dangerousReturnTo
          then Some (originOf safeBase +:+ dangerousReturnTo)
          else None
      | None => Some (baseURL config)
      end
  end.

(** Modelled from the spec: the login state accumulated before the
    custom hook runs, holding the resolved return URL if there is one. *)
Definition accumulatedState (query : list (string * string))
  (options : LoginOptions) : LoginState :=
  match resolveReturnTo query options with
  | Some r => {[ "returnTo" := r ]}
  | None => ∅
  end.

(** Modelled from the spec: steps 5 and 6 of the login-state
    construction.  The mapping returned by the custom hook is merged over
    the accumulated state; any other value aborts the login with the
    error the tests expect. *)
Definition buildLoginState (query : list (string * string))
  (options : LoginOptions) : outcome LoginState :=
  let accumulated := accumulatedState query options in
  match getLoginState options with
  | None => Returned accumulated
  | Some hook =>
      match hook accumulated with
      | JObject m => Returned (m ∪ accumulated)
      | _ => Thrown "Custom state value must be an object"
      end
  end.

(** Modelled from the spec: the authorization-request parameters, caller
    options over static configuration over the defaults of the SDK; a
    [redirect_uri] of the caller or of the configuration thus replaces the
    callback route. *)
Definition authorizationRequest (options : LoginOptions)
  (nonce state verifier : string) : gmap string string :=
  <["nonce" := nonce]>
    (<["state" := state]>
       (<["code_challenge" := codeChallenge verifier]>
          (<["code_challenge_method" := "S256"]>
             (mergedParams options ∪
                {[ "client_id" := clientID;
                   "response_type" := "code";
                   "redirect_uri" := callback ]})))).

Definition lax (v : string) : StoreOptions :=
  {| sameSite := Some SameSiteLax; value := v |}.

(** Modelled from the spec: the Login Orchestrator (section 4.5).  The
    login state is built first; then the nonce, the serialized state and
    the code verifier are persisted as transient cookies with
    [sameSite = lax]; then the redirect is issued.  The random nonce and
    code verifier are inputs. *)
Definition login (query : list (string * string)) (options : LoginOptions)
  (nonce verifier : string)
  : Eff.M (TransientStore.World Key) unit :=
  let save := TransientStore.save signing generateCookieValue config in
  let! stateValue := Eff.await (buildLoginState query options) in
  let state := encodeState stateValue in
  save "nonce" (lax nonce) ;;;
  save "state" (lax state) ;;;
  save "code_verifier" (lax verifier) ;;;
  Eff.modify
    (TransientStore.call
       (Redirect
          (authorizationUrl
             (authorizationRequest options nonce state verifier)))).

(** Modelled from the spec: the route handler around [login].  A failure
    surfaces as a server error naming the failing phase, as in the
    handler's tests; otherwise the response is the redirect. *)
Definition handleLogin (query : list (string * string))
  (options : LoginOptions) (nonce verifier : string)
  : Eff.M (TransientStore.World Key) HttpResponse :=
  Eff.catch
    (login query options nonce verifier ;;;
     Eff.ret {| status := 302; statusText := "Found" |})
    (fun e =>
       Eff.ret {| status := 500;
                  statusText := "Login handler failed. CAUSE: " +:+ e |}).

End Handler.

End Login.

(** ** A user agent and the fixtures of the handler tests *)

(** The user agent is outside the repository.  Its cookie jar after it has
    processed the calls a response received: a cookie that is set replaces
    the one of that name, a cleared cookie is dropped. *)
Fixpoint cookieJar (calls : list ResCall) (jar : gmap string string)
  : gmap string string :=
  match calls with
  | [] => jar
  | SetCookie name v _ :: rest => cookieJar rest (<[name := v]> jar)
  | ClearCookie name _ :: rest => cookieJar rest (base.delete name jar)
  | Redirect _ :: rest => cookieJar rest jar
  end.

(** How often [name] is cleared in a list of calls. *)
Definition isClearOf (name : string) (c : ResCall) : bool :=
  match c with
  | ClearCookie n _ => String.eqb n name
  | _ => false
  end.

Definition clears (name : string) (calls : list ResCall) : nat :=
  length (List.filter (isClearOf name) calls).

(** The keys in the cache of a store are the ones [getKeys] derives. *)
Definition coherent {Key} (signing : string -> Key) (config : Config)
  (w : TransientStore.World Key) : Prop :=
  forall ks, TransientStore.keys w = Some ks ->
             ks = map signing (TransientStore.secrets config).

(** The keys a store works with: the cached ones, else the derived ones. *)
Definition keysOf {Key} (signing : string -> Key) (config : Config)
  (w : TransientStore.World Key) : list Key :=
  default (map signing (TransientStore.secrets config)) (TransientStore.keys w).

(** The world once the key cache is filled. *)
Definition warmed {Key} (signing : string -> Key) (config : Config)
  (w : TransientStore.World Key) : TransientStore.World Key :=
  {| TransientStore.keys := Some (keysOf signing config w);
     TransientStore.res := TransientStore.res w |}.

Module Fixtures.

Definition cookie : CookieConfig :=
  {| domain := None; path := Some "/"; secure := Some false |}.

Definition config : Config :=
  {| secret := SecretArray ["current-secret"; "old-secret"];
     legacySameSiteCookie := true;
     session_cookie := cookie;
     baseURL := "http://www.acme.com/";
     idpLogout := true;
     postLogoutRedirect := "" |}.

Definition noOptions : Login.LoginOptions :=
  {| Login.returnTo := None;
     Login.authorizationParams := ∅;
     Login.getLoginState := None |}.

(** A hook returning the number [1]. *)
Definition badHook : Login.LoginOptions :=
  {| Login.returnTo := None;
     Login.authorizationParams := ∅;
     Login.getLoginState := Some (fun _ => Login.JNumber 1) |}.

Definition resolveReturnTo := Login.resolveReturnTo config ∅.

Definition buildLoginState := Login.buildLoginState config ∅.

(** The caller of the test that overrides the redirect URI, and a static
    configuration that does. *)
Definition otherOrg : Login.LoginOptions :=
  {| Login.returnTo := None;
     Login.authorizationParams :=
       {[ "redirect_uri" := "https://other-org.acme.com/api/auth/callback" ]};
     Login.getLoginState := None |}.

Definition otherOrgParams : gmap string string :=
  {[ "redirect_uri" := "https://other-org.acme.com/api/auth/callback" ]}.

(** A session is the logged-in user's ID token, if any. *)
Definition isAuthenticated (s : option string) : bool := bool_decide (is_Some s).
Definition getIdToken (s : option string) : option string := s.
Definition delete (s : option string) : option string := None.

Definition isURL (s : string) : bool := Login.isAbsoluteURL s.
Definition urlJoin (a b : string) : string := a +:+ b.

(** A client whose end-session endpoint cannot be determined. *)
Definition failingEndSessionUrl (params : gmap string (option string))
  : outcome string :=
  Thrown "end_session_endpoint must be configured on the issuer".

Definition handleLogout :=
  Logout.logoutHandlerFactory isAuthenticated getIdToken delete
    failingEndSessionUrl isURL urlJoin config.

(** Stand-ins for the state encoding, the PKCE transform and the
    authorize endpoint. *)
Definition encodeState (st : gmap string string) : string :=
  "state(" +:+ default "" (st !! "returnTo") +:+ ")".
Definition codeChallenge (verifier : string) : string :=
  "S256(" +:+ verifier +:+ ")".
Definition authorizationUrl (params : gmap string string) : string :=
  "https://acme.auth0.local/authorize?state="
    +:+ default "" (params !! "state").

Definition handleLogin :=
  Login.handleLogin Symbolic.signing Symbolic.generateCookieValue
    encodeState codeChallenge authorizationUrl config
    "__test_client_id__" ∅ "http://www.acme.com/api/auth/callback".

(** Saving an empty transient value, and the request a user agent sends
    after it has processed the response. *)
Definition laxEmpty : StoreOptions :=
  {| sameSite := Some SameSiteLax; value := "" |}.

Definition savedEmpty : outcome string * TransientStore.World string :=
  Symbolic.save config "state" laxEmpty TransientStore.fresh.

Definition requestAfter (r : outcome string * TransientStore.World string)
  : Auth0Request :=
  {| getCookies := cookieJar (TransientStore.res (snd r)) ∅ |}.

(** A request carrying a [nonce] cookie signed under the current secret. *)
Definition signedRequest : Auth0Request :=
  {| getCookies :=
       {[ "nonce" := "abc.hs256(hkdf(current-secret),nonce=abc)" ]} |}.

(** A request carrying a [state] cookie signed under the older secret. *)
Definition rotatedRequest : Auth0Request :=
  {| getCookies :=
       {[ "state" :=
            SignedCookies.encode Symbolic.mac Symbolic.serialize
              "state" "xyz" (Symbolic.signing "old-secret") ]} |}.

End Fixtures.

(** ** Observers for composed runs *)

(** The calls a response received between two states of the store. *)
Definition since {Key} (w w' : TransientStore.World Key) : list ResCall :=
  drop (length (TransientStore.res w)) (TransientStore.res w').

(** The request a user agent holding [jar] sends once it has processed the
    calls made between [w] and [w']. *)
Definition nextRequest {Key} (jar : gmap string string)
  (w w' : TransientStore.World Key) : Auth0Request :=
  {| getCookies := cookieJar (since w w') jar |}.

(** The codec reads back, under every cookie name, what it wrote for [v]:
    signing [v] with the first of [keys] succeeds, and verifying the result
    against [keys] gives [v]. *)
Definition roundTrips {Key}
  (generateCookieValue : string -> string -> option Key -> outcome string)
  (getCookieValue : string -> option string -> list Key -> option string)
  (keys : list Key) (v : string) : Prop :=
  forall name : string, exists cv : string,
    generateCookieValue name v (head keys) = Returned cv
    /\ getCookieValue name (Some cv) keys = Some v.


(** The cookie a call on the response is about, if any. *)
Definition cookieOf (c : ResCall) : option string :=
  match c with
  | SetCookie name _ _ => Some name
  | ClearCookie name _ => Some name
  | Redirect _ => None
  end.

Definition isSetCookie (c : ResCall) : bool :=
  match c with
  | SetCookie _ _ _ => true
  | _ => false
  end.

Definition isClearCookie (c : ResCall) : bool :=
  match c with
  | ClearCookie _ _ => true
  | _ => false
  end.

(** Calls of the logout handler, by kind. *)
Definition isRedirect (c : Logout.Call) : bool :=
  match c with
  | Logout.Res (Redirect _) => true
  | _ => false
  end.

Definition isEndSessionUrl (c : Logout.Call) : bool :=
  match c with
  | Logout.EndSessionUrl _ => true
  | _ => false
  end.

Definition redirects (calls : list Logout.Call) : nat :=
  length (List.filter isRedirect calls).

(** The calls the logout handler made between two states. *)
Definition madeSince {Session} (w w' : Logout.World Session)
  : list Logout.Call :=
  drop (length (Logout.calls w)) (Logout.calls w').

Module Scenarios.

(** A configuration without any secret. *)
Definition noSecrets : Config :=
  {| secret := SecretArray [];
     legacySameSiteCookie := true;
     session_cookie := Fixtures.cookie;
     baseURL := "http://www.acme.com/";
     idpLogout := true;
     postLogoutRedirect := "" |}.

(** A configuration with a single secret, without the legacy cookie and
    with a local-only logout. *)
Definition plain : Config :=
  {| secret := SecretString "current-secret";
     legacySameSiteCookie := false;
     session_cookie := Fixtures.cookie;
     baseURL := "http://www.acme.com/";
     idpLogout := false;
     postLogoutRedirect := "/bye" |}.

(** The configuration of the fixtures, with the legacy cookie disabled. *)
Definition withoutLegacy : Config :=
  {| secret := secret Fixtures.config;
     legacySameSiteCookie := false;
     session_cookie := session_cookie Fixtures.config;
     baseURL := baseURL Fixtures.config;
     idpLogout := idpLogout Fixtures.config;
     postLogoutRedirect := postLogoutRedirect Fixtures.config |}.

(** Saving an empty transient value with [sameSite = 'none']. *)
Definition savedEmptyNone : outcome string * TransientStore.World string :=
  Symbolic.save Fixtures.config "state"
    {| sameSite := Some SameSiteNone; value := "" |} TransientStore.fresh.

Definition noneOpts (v : string) : StoreOptions :=
  {| sameSite := Some SameSiteNone; value := v |}.

Definition laxOpts (v : string) : StoreOptions :=
  {| sameSite := Some SameSiteLax; value := v |}.

(** A client whose end-session endpoint is known. *)
Definition endSessionUrl (params : gmap string (option string))
  : outcome string :=
  Returned ("https://acme.auth0.local/v2/logout?post_logout_redirect_uri="
              +:+ default ""
                    (default None (params !! "post_logout_redirect_uri"))).

Definition loggedIn : Logout.World (option string) :=
  {| Logout.session := Some "id-token"; Logout.calls := [] |}.

Definition loggedOut : Logout.World (option string) :=
  {| Logout.session := None; Logout.calls := [] |}.

Definition logout (config : Config) :=
  Logout.logoutHandlerFactory Fixtures.isAuthenticated Fixtures.getIdToken
    Fixtures.delete endSessionUrl Fixtures.isURL Fixtures.urlJoin config.

Definition failingLogout (config : Config) :=
  Logout.logoutHandlerFactory Fixtures.isAuthenticated Fixtures.getIdToken
    Fixtures.delete Fixtures.failingEndSessionUrl Fixtures.isURL
    Fixtures.urlJoin config.

End Scenarios.

(** * Properties *)

(** ** Running the transient store *)

Section StoreFacts.
Context {Key : Type}.
Variable signing : string -> Key.
Variable generateCookieValue : string -> string -> option Key -> outcome string.
Variable getCookieValue : string -> option string -> list Key -> option string.
Variable config : Config.

Abbreviation World := (TransientStore.World Key).
Abbreviation save := (TransientStore.save signing generateCookieValue config).
Abbreviation read := (TransientStore.read signing getCookieValue config).
Abbreviation getKeys := (TransientStore.getKeys signing config).
Abbreviation fallbackName := TransientStore.fallbackName.
Abbreviation warmed := (warmed signing config).

Lemma getKeys_run (w : World) :
  getKeys w = (Returned (keysOf signing config w), warmed w).
Proof.
  unfold TransientStore.getKeys, warmed, keysOf, Eff.bind, Eff.get.
  destruct w as [[ks|] r]; reflexivity.
Qed.

Lemma keysOf_coherent (w : World) :
  coherent signing config w ->
  keysOf signing config w = map signing (TransientStore.secrets config).
Proof.
  unfold coherent, keysOf. intros H.
  destruct (TransientStore.keys w) as [ks|]; simpl; auto.
Qed.

Lemma coherent_fresh : coherent signing config TransientStore.fresh.
Proof. intros ks H. discriminate H. Qed.

Lemma coherent_warmed (w : World) :
  coherent signing config w -> coherent signing config (warmed w).
Proof.
  intros H ks Hks. simpl in Hks. injection Hks as <-.
  now apply keysOf_coherent.
Qed.

(** What [save] does, case by case on the two signing calls. *)
Lemma save_run (key : string) (opts : StoreOptions) (w : World) :
  let v := value opts in
  let ss := default SameSiteNone (sameSite opts) in
  let k := head (keysOf signing config w) in
  let primary cv :=
    TransientStore.call
      (SetCookie key cv (TransientStore.primaryAttr config ss)) (warmed w) in
  save key opts w =
    match generateCookieValue key v k with
    | Thrown e => (Thrown e, warmed w)
    | Returned cv =>
        if bool_decide (ss = SameSiteNone) && legacySameSiteCookie config then
          match generateCookieValue (fallbackName key) v k with
          | Thrown e => (Thrown e, primary cv)
          | Returned cv' =>
              (Returned v,
               TransientStore.call
                 (SetCookie (fallbackName key) cv'
                    (TransientStore.basicAttr config)) (primary cv))
          end
        else (Returned v, primary cv)
    end.
Proof.
  intros v ss k primary.
  unfold TransientStore.save. unfold Eff.bind at 1. rewrite getKeys_run.
  fold v ss k.
  unfold Eff.bind, Eff.await, TransientStore.setCookie, Eff.modify, Eff.ret.
  destruct (generateCookieValue key v k) as [cv|e]; [|reflexivity].
  destruct (bool_decide (ss = SameSiteNone) && legacySameSiteCookie config);
    [|reflexivity].
  destruct (generateCookieValue (fallbackName key) v k); reflexivity.
Qed.

(** What [read] does: it always returns, and clears as it goes. *)
Lemma read_run (key : string) (req : Auth0Request) (w : World) :
  let ks := keysOf signing config w in
  let cookies := getCookies req in
  let cfg := session_cookie config in
  let primary := getCookieValue key (cookies !! key) ks in
  let fallback :=
    getCookieValue (fallbackName key) (cookies !! fallbackName key) ks in
  read key req w =
    if legacySameSiteCookie config then
      (Returned (if truthy primary then primary else fallback),
       TransientStore.call (ClearCookie (fallbackName key) cfg)
         (TransientStore.call (ClearCookie key cfg) (warmed w)))
    else
      (Returned primary,
       TransientStore.call (ClearCookie key cfg) (warmed w)).
Proof.
  intros ks cookies cfg primary fallback.
  unfold TransientStore.read. unfold Eff.bind at 1. rewrite getKeys_run.
  fold ks cookies cfg primary.
  unfold Eff.bind, TransientStore.clearCookie, Eff.modify, Eff.ret.
  destruct (legacySameSiteCookie config); [|reflexivity].
  fold fallback. destruct (truthy primary); reflexivity.
Qed.

End StoreFacts.

(** ** The transient store: what is written and what is cleared *)

Lemma String_cons_neq (c : ascii) (s : string) : String c s <> s.
Proof.
  revert c. induction s as [|a s IH]; intros c H; [discriminate|].
  injection H as _ H. exact (IH a H).
Qed.

Lemma fallbackName_neq (key : string) : TransientStore.fallbackName key <> key.
Proof. apply String_cons_neq. Qed.

Lemma fallbackName_eqb (key : string) :
  String.eqb (TransientStore.fallbackName key) key = false.
Proof. apply String.eqb_neq, fallbackName_neq. Qed.

Section StoreClaims.
Context {Key : Type}.
Variable signing : string -> Key.
Variable generateCookieValue : string -> string -> option Key -> outcome string.
Variable getCookieValue : string -> option string -> list Key -> option string.
Variable config : Config.

Abbreviation save' := (TransientStore.save signing generateCookieValue config).
Abbreviation read' := (TransientStore.read signing getCookieValue config).
Abbreviation fb := TransientStore.fallbackName.
Abbreviation resOf := TransientStore.res.

(** C1 (as amended).  When [save] is called with [sameSite = 'none'] and
    [legacySameSiteCookie] is enabled, and both signing calls succeed, the
    response receives exactly two [setCookie] calls: the primary cookie
    [key] with the value [generateCookieValue(key, value, signingKey)], and
    the fallback cookie [_key] with the value
    [generateCookieValue(_key, value, signingKey)].  The fallback carries the
    same payload, signed with the same key, but under its own cookie
    name. *)
Theorem save_fallback_signed_under_own_name
  (key : string) (opts : StoreOptions) (w : TransientStore.World Key)
  (cv cv' : string) :
  default SameSiteNone (sameSite opts) = SameSiteNone ->
  legacySameSiteCookie config = true ->
  generateCookieValue key (value opts) (head (keysOf signing config w))
    = Returned cv ->
  generateCookieValue (fb key) (value opts) (head (keysOf signing config w))
    = Returned cv' ->
  resOf (snd (save' key opts w)) =
    resOf w ++
      [ SetCookie key cv (TransientStore.primaryAttr config SameSiteNone);
        SetCookie (fb key) cv' (TransientStore.basicAttr config) ].
Proof.
  intros Hnone Hlegacy Hcv Hcv'.
  rewrite save_run, Hcv, Hnone, Hlegacy, Hcv'.
  rewrite bool_decide_eq_true_2 by reflexivity. simpl.
  now rewrite <- app_assoc.
Qed.

(** C2 (as amended).  Every call to [read] returns, and clears the primary
    cookie [key] from the response exactly once: the first call the response
    receives is [clearCookie(key, cookieConfig)], no other call clears [key],
    and this holds for every request and every outcome of the verification.
    So a user agent that applies the response no longer holds the cookie.
    (The request itself is not consumed.) *)
Theorem read_clears_primary_once
  (key : string) (req : Auth0Request) (w : TransientStore.World Key) :
  exists (v : option string) (new : list ResCall),
    read' key req w =
      (Returned v,
       {| TransientStore.keys := Some (keysOf signing config w);
          TransientStore.res := resOf w ++ new |})
    /\ head new = Some (ClearCookie key (session_cookie config))
    /\ clears key new = 1
    /\ cookieJar new (getCookies req) !! key = None.
Proof.
  rewrite read_run. destruct (legacySameSiteCookie config).
  - eexists _, [ClearCookie key _; ClearCookie (fb key) _].
    split; [|split; [|split]].
    + unfold TransientStore.call, warmed. simpl.
      now rewrite <- app_assoc.
    + reflexivity.
    + unfold clears. cbn [List.filter isClearOf].
      rewrite String.eqb_refl, fallbackName_eqb. reflexivity.
    + simpl. rewrite lookup_delete_ne by apply fallbackName_neq.
      apply lookup_delete_eq.
  - eexists _, [ClearCookie key _]. split; [|split; [|split]].
    + reflexivity.
    + reflexivity.
    + unfold clears. cbn [List.filter isClearOf].
      rewrite String.eqb_refl. reflexivity.
    + simpl. apply lookup_delete_eq.
Qed.

(** C3.  When signing succeeds, the first call [save] makes on the response
    sets the primary cookie [key]; its [secure] attribute is [true]
    whenever [sameSite] is ['none'] (also by default), whatever
    [config.session.cookie.secure] is, and is the configured flag,
    unchanged, for every other [sameSite]. *)
Theorem save_primary_secure
  (key : string) (opts : StoreOptions) (w : TransientStore.World Key)
  (cv : string) :
  generateCookieValue key (value opts) (head (keysOf signing config w))
    = Returned cv ->
  let ss := default SameSiteNone (sameSite opts) in
  exists attrs : CookieAttrs,
    resOf (snd (save' key opts w)) !! length (resOf w)
      = Some (SetCookie key cv attrs)
    /\ attr_sameSite attrs = Some ss
    /\ (ss = SameSiteNone -> attr_secure attrs = Some true)
    /\ (ss <> SameSiteNone ->
        attr_secure attrs = secure (session_cookie config)).
Proof.
  intros Hcv ss. exists (TransientStore.primaryAttr config ss).
  split; [|split; [|split]].
  - rewrite save_run, Hcv. fold ss.
    destruct (bool_decide (ss = SameSiteNone) && legacySameSiteCookie config).
    + destruct (generateCookieValue (fb key) _ _);
        cbn [snd TransientStore.res TransientStore.call warmed].
      * rewrite <- app_assoc. now apply list_lookup_middle.
      * now apply list_lookup_middle.
    + cbn [snd TransientStore.res TransientStore.call warmed].
      now apply list_lookup_middle.
  - reflexivity.
  - intros ->. reflexivity.
  - intros Hne. simpl. now rewrite bool_decide_eq_false_2.
Qed.

(** C9.  With [legacySameSiteCookie] enabled, every call to [read] clears
    the fallback cookie [_key]: the response receives
    [clearCookie(key, cookieConfig)] and then
    [clearCookie(_key, cookieConfig)].  This includes the calls in which the
    primary cookie yields a truthy value: the value returned is then the
    primary one and does not depend on the cookies the request holds under
    other names, the fallback among them. *)
Theorem read_clears_fallback
  (key : string) (req : Auth0Request) (w : TransientStore.World Key) :
  legacySameSiteCookie config = true ->
  let ks := keysOf signing config w in
  let primary := getCookieValue key (getCookies req !! key) ks in
  exists v : option string,
    read' key req w =
      (Returned v,
       {| TransientStore.keys := Some ks;
          TransientStore.res :=
            resOf w ++ [ ClearCookie key (session_cookie config);
                         ClearCookie (fb key) (session_cookie config) ] |})
    /\ (truthy primary = true ->
        v = primary
        /\ forall req' : Auth0Request,
             getCookies req' !! key = getCookies req !! key ->
             read' key req' w = read' key req w).
Proof.
  intros Hlegacy ks primary. rewrite read_run, Hlegacy. fold ks primary.
  eexists. split.
  - unfold TransientStore.call, warmed. simpl. now rewrite <- app_assoc.
  - intros Ht. rewrite Ht. split; [reflexivity|].
    intros req' Heq. rewrite !read_run, Hlegacy, Heq. fold ks primary.
    now rewrite Ht.
Qed.

(** C10.  Whatever [save] returns is the caller's [value], unchanged: the
    raw payload, not the signed string it wrote to the response.  And
    [save] does return it whenever the payload can be signed with the
    signing key. *)
Theorem save_returns_raw_value
  (key : string) (opts : StoreOptions) (w : TransientStore.World Key) :
  (forall r : string, fst (save' key opts w) = Returned r -> r = value opts)
  /\ ((forall name : string, exists cv : string,
         generateCookieValue name (value opts)
           (head (keysOf signing config w)) = Returned cv) ->
      fst (save' key opts w) = Returned (value opts)).
Proof.
  rewrite save_run. split.
  - intros r.
    destruct (generateCookieValue key _ _); [|discriminate].
    destruct (_ && _).
    + destruct (generateCookieValue (fb key) _ _); [|discriminate].
      simpl. now intros [= <-].
    + simpl. now intros [= <-].
  - intros Hsign.
    destruct (Hsign key) as [cv ->]. destruct (Hsign (fb key)) as [cv' ->].
    now destruct (_ && _).
Qed.

End StoreClaims.

(** ** The store at work on the fixtures *)

Lemma save_fallback_signed_under_own_name_witness :
  default SameSiteNone (sameSite {| sameSite := None; value := "abc" |})
    = SameSiteNone
  /\ legacySameSiteCookie Fixtures.config = true
  /\ TransientStore.res
       (snd (Symbolic.save Fixtures.config "nonce"
               {| sameSite := None; value := "abc" |} TransientStore.fresh))
     = [ SetCookie "nonce" "abc.hs256(hkdf(current-secret),nonce=abc)"
           (TransientStore.primaryAttr Fixtures.config SameSiteNone);
         SetCookie "_nonce" "abc.hs256(hkdf(current-secret),_nonce=abc)"
           (TransientStore.basicAttr Fixtures.config) ].
Proof.
  split; [reflexivity|]. split; [reflexivity|].
  exact (save_fallback_signed_under_own_name
           Symbolic.signing Symbolic.generateCookieValue Fixtures.config
           "nonce" {| sameSite := None; value := "abc" |} TransientStore.fresh
           "abc.hs256(hkdf(current-secret),nonce=abc)"
           "abc.hs256(hkdf(current-secret),_nonce=abc)"
           eq_refl eq_refl eq_refl eq_refl).
Defined.

(** C1 (as stated) fails: with [sameSite = 'none'] and the legacy cookie
    enabled, the two [setCookie] calls of [save] receive different value
    strings, since each value is signed under the name of its own cookie. *)
Lemma save_fallback_value_differs :
  exists (cv cv' : string) (a a' : CookieAttrs),
    TransientStore.res
      (snd (Symbolic.save Fixtures.config "nonce"
              {| sameSite := Some SameSiteNone; value := "abc" |}
              TransientStore.fresh))
    = [ SetCookie "nonce" cv a; SetCookie "_nonce" cv' a' ]
    /\ cv <> cv'.
Proof.
  eexists _, _, _, _. split; [reflexivity|]. discriminate.
Qed.

(** C2 (as stated) fails in its consequence: [read] clears the cookie on the
    response only and leaves the request as it is, so the value is recovered
    a second time from the same cookie of the same request. *)
Lemma read_recovers_twice_from_same_cookie :
  getCookies Fixtures.signedRequest !! "nonce"
  = Some "abc.hs256(hkdf(current-secret),nonce=abc)"
  /\ fst (Symbolic.read Fixtures.config "nonce" Fixtures.signedRequest
            TransientStore.fresh)
     = Returned (Some "abc")
  /\ fst (Symbolic.read Fixtures.config "nonce" Fixtures.signedRequest
            (snd (Symbolic.read Fixtures.config "nonce"
                    Fixtures.signedRequest TransientStore.fresh)))
     = Returned (Some "abc").
Proof. vm_compute. repeat split. Qed.

Lemma save_primary_secure_witness :
  Symbolic.generateCookieValue "nonce" "abc"
    (head (keysOf Symbolic.signing Fixtures.config TransientStore.fresh))
    = Returned "abc.hs256(hkdf(current-secret),nonce=abc)"
  /\ exists attrs : CookieAttrs,
       TransientStore.res
         (snd (Symbolic.save Fixtures.config "nonce"
                 {| sameSite := None; value := "abc" |} TransientStore.fresh))
         !! 0
       = Some (SetCookie "nonce" "abc.hs256(hkdf(current-secret),nonce=abc)"
                 attrs)
       /\ attr_secure attrs = Some true.
Proof.
  split; [reflexivity|].
  destruct (save_primary_secure
              Symbolic.signing Symbolic.generateCookieValue Fixtures.config
              "nonce" {| sameSite := None; value := "abc" |}
              TransientStore.fresh
              "abc.hs256(hkdf(current-secret),nonce=abc)" eq_refl)
    as (attrs & Hset & _ & Hnone & _).
  exists attrs. split; [exact Hset | exact (Hnone eq_refl)].
Defined.

Lemma read_clears_fallback_witness :
  legacySameSiteCookie Fixtures.config = true
  /\ exists v : option string,
       Symbolic.read Fixtures.config "nonce"
         {| getCookies :=
              {[ "nonce" := "abc.hs256(hkdf(current-secret),nonce=abc)" ]} |}
         TransientStore.fresh
       = (Returned v,
          {| TransientStore.keys :=
               Some (keysOf Symbolic.signing Fixtures.config
                       TransientStore.fresh);
             TransientStore.res :=
               [ ClearCookie "nonce" Fixtures.cookie;
                 ClearCookie "_nonce" Fixtures.cookie ] |}).
Proof.
  split; [reflexivity|].
  destruct (read_clears_fallback
              Symbolic.signing Symbolic.getCookieValue Fixtures.config
              "nonce"
              {| getCookies :=
                   {[ "nonce" := "abc.hs256(hkdf(current-secret),nonce=abc)" ]} |}
              TransientStore.fresh eq_refl)
    as (v & Hrun & _).
  exists v. exact Hrun.
Defined.

Lemma save_returns_raw_value_witness :
  (forall name : string, exists cv : string,
     Symbolic.generateCookieValue name "abc"
       (head (keysOf Symbolic.signing Fixtures.config TransientStore.fresh))
     = Returned cv)
  /\ fst (Symbolic.save Fixtures.config "nonce"
            {| sameSite := None; value := "abc" |} TransientStore.fresh)
     = Returned "abc".
Proof.
  assert (Hsign : forall name : string, exists cv : string,
            Symbolic.generateCookieValue name "abc"
              (head (keysOf Symbolic.signing Fixtures.config
                       TransientStore.fresh))
            = Returned cv)
    by (intros name; eexists; reflexivity).
  split; [exact Hsign|].
  exact (proj2 (save_returns_raw_value
                  Symbolic.signing Symbolic.generateCookieValue Fixtures.config
                  "nonce" {| sameSite := None; value := "abc" |}
                  TransientStore.fresh) Hsign).
Defined.

(** ** The codec: splitting, first match, round trip *)

Lemma split_sep_app (a b : string) :
  SignedCookies.separator_free a = true ->
  SignedCookies.split_sep (a +:+ String SignedCookies.separator b) = Some (a, b).
Proof.
  induction a as [|c a IH]; simpl; intros H.
  - reflexivity.
  - apply andb_prop in H as [Hc Ha].
    apply negb_true_iff in Hc. rewrite Hc, (IH Ha). reflexivity.
Qed.

Lemma find_first_match {A} (f : A -> bool) (l : list A) (k : A) :
  List.find f l = Some k ->
  exists pre post : list A,
    l = pre ++ k :: post /\ f k = true /\ Forall (fun x => f x = false) pre.
Proof.
  induction l as [|x l IH]; simpl; [discriminate|].
  destruct (f x) eqn:Hx.
  - intros [= <-]. exists [], l. auto.
  - intros H. destruct (IH H) as (pre & post & -> & Hk & Hpre).
    exists (x :: pre), post. auto.
Qed.

Lemma find_finds {A} (f : A -> bool) (l : list A) (k : A) :
  In k l -> f k = true -> exists k' : A, List.find f l = Some k'.
Proof.
  intros Hin Hk. destruct (List.find f l) as [k'|] eqn:Hfind; [eauto|].
  pose proof (find_none f l Hfind k Hin) as Hnone. congruence.
Qed.

Section CodecFacts.
Context {Key : Type}.
Variable mac : Key -> string -> string -> string.
Variable serialize : string -> string.
Variable deserialize : string -> option string.

Abbreviation encode := (SignedCookies.encode mac serialize).
Abbreviation decode := (SignedCookies.decode mac deserialize).

(** The key a decoded value is attributed to is the first one, in the
    order of the list, whose tag matches. *)
Lemma decode_first_match (name c : string) (keys : list Key)
  (v : string) (k : Key) :
  decode name c keys = SignedCookies.Value v k ->
  exists (sv tag : string) (pre post : list Key),
    SignedCookies.split_sep c = Some (sv, tag)
    /\ keys = pre ++ k :: post
    /\ mac k name sv = tag
    /\ Forall (fun k' => mac k' name sv <> tag) pre
    /\ deserialize sv = Some v.
Proof.
  unfold SignedCookies.decode.
  destruct (SignedCookies.split_sep c) as [[sv tag]|]; [|discriminate].
  destruct (List.find _ keys) as [k0|] eqn:Hfind; [|discriminate].
  destruct (deserialize sv) as [v0|] eqn:Hde; [|discriminate].
  intros [= <- <-].
  apply find_first_match in Hfind as (pre & post & -> & Hk & Hpre).
  exists sv, tag, pre, post. repeat split; auto.
  - now apply String.eqb_eq.
  - eapply Forall_impl; [exact Hpre|].
    intros k' Hk'. now apply String.eqb_neq.
Qed.

(** A value encoded under any of the candidate keys decodes to itself. *)
Lemma decode_encode (name v : string) (k : Key) (keys : list Key) :
  In k keys ->
  SignedCookies.separator_free (serialize v) = true ->
  deserialize (serialize v) = Some v ->
  exists k' : Key,
    decode name (encode name v k) keys = SignedCookies.Value v k'.
Proof.
  intros Hin Hfree Hround.
  unfold SignedCookies.decode, SignedCookies.encode.
  rewrite (split_sep_app _ _ Hfree).
  destruct (find_finds
              (fun k0 => String.eqb (mac k0 name (serialize v))
                           (mac k name (serialize v)))
              keys k Hin (String.eqb_refl _)) as [k' ->].
  rewrite Hround. eauto.
Qed.

Lemma getCookieValue_encode (name v : string) (k : Key) (keys : list Key) :
  In k keys ->
  SignedCookies.separator_free (serialize v) = true ->
  deserialize (serialize v) = Some v ->
  SignedCookies.getCookieValue mac deserialize name
    (Some (encode name v k)) keys = Some v.
Proof.
  intros Hin Hfree Hround. unfold SignedCookies.getCookieValue.
  destruct (decode_encode name v k keys Hin Hfree Hround) as [k' ->].
  reflexivity.
Qed.

End CodecFacts.

Lemma truthy_nonempty (v : string) : v <> "" -> truthy (Some v) = true.
Proof.
  intros H. unfold truthy. apply negb_true_iff. now apply String.eqb_neq.
Qed.

(** ** Secret rotation *)

Section Rotation.
Context {Key : Type}.
Variable signing : string -> Key.
Variable mac : Key -> string -> string -> string.
Variable serialize : string -> string.
Variable deserialize : string -> option string.
Variable config : Config.

Abbreviation sign := (SignedCookies.generateCookieValue mac serialize).
Abbreviation verify := (SignedCookies.getCookieValue mac deserialize).
Abbreviation saveS := (TransientStore.save signing sign config).
Abbreviation readS := (TransientStore.read signing verify config).
Abbreviation allKeys := (map signing (TransientStore.secrets config)).

(** Secret rotation, with the codec of the spec.  For every configured
    secret list and every coherent store:
    - [save] signs with the key derived from the first configured secret
      only: the primary cookie, and the fallback cookie when it is written,
      carry the payload encoded under that key;
    - [read] verifies against the keys derived from all configured secrets,
      in configured order;
    - the candidate keys are tried in that order and the first one whose tag
      matches wins;
    - so [read] returns a value signed under any configured secret, when the
      codec round-trips that value and it is non-empty or
      [legacySameSiteCookie] is disabled. *)
Theorem secret_rotation (key : string) (w : TransientStore.World Key) :
  coherent signing config w ->
  (forall (opts : StoreOptions) (s1 : string),
      head (TransientStore.secrets config) = Some s1 ->
      let ss := default SameSiteNone (sameSite opts) in
      saveS key opts w =
        (Returned (value opts),
         {| TransientStore.keys := Some allKeys;
            TransientStore.res :=
              TransientStore.res w ++
                SetCookie key
                  (SignedCookies.encode mac serialize key (value opts)
                     (signing s1))
                  (TransientStore.primaryAttr config ss)
                :: (if bool_decide (ss = SameSiteNone)
                       && legacySameSiteCookie config
                    then [ SetCookie (TransientStore.fallbackName key)
                             (SignedCookies.encode mac serialize
                                (TransientStore.fallbackName key)
                                (value opts) (signing s1))
                             (TransientStore.basicAttr config) ]
                    else []) |}))
  /\ (forall req : Auth0Request,
        let primary := verify key (getCookies req !! key) allKeys in
        let fallback :=
          verify (TransientStore.fallbackName key)
            (getCookies req !! TransientStore.fallbackName key) allKeys in
        fst (readS key req w) =
          Returned (if legacySameSiteCookie config
                    then if truthy primary then primary else fallback
                    else primary))
  /\ (forall (name c v : string) (k : Key),
        SignedCookies.decode mac deserialize name c allKeys
          = SignedCookies.Value v k ->
        exists (sv tag : string) (pre post : list Key),
          SignedCookies.split_sep c = Some (sv, tag)
          /\ allKeys = pre ++ k :: post
          /\ mac k name sv = tag
          /\ Forall (fun k' => mac k' name sv <> tag) pre)
  /\ (forall (req : Auth0Request) (s v : string),
        In s (TransientStore.secrets config) ->
        v <> "" \/ legacySameSiteCookie config = false ->
        SignedCookies.separator_free (serialize v) = true ->
        deserialize (serialize v) = Some v ->
        getCookies req !! key
          = Some (SignedCookies.encode mac serialize key v (signing s)) ->
        fst (readS key req w) = Returned (Some v)).
Proof.
  intros Hco. pose proof (keysOf_coherent signing config w Hco) as Hks.
  split; [|split; [|split]].
  - intros opts s1 Hs1 ss. rewrite save_run. fold ss.
    unfold warmed. rewrite Hks.
    assert (Hk1 : head allKeys = Some (signing s1)).
    { destruct (TransientStore.secrets config); [discriminate|].
      injection Hs1 as ->. reflexivity. }
    rewrite Hk1. cbn [SignedCookies.generateCookieValue].
    destruct (bool_decide (ss = SameSiteNone) && legacySameSiteCookie config);
      unfold TransientStore.call; cbn [TransientStore.keys TransientStore.res].
    + now rewrite <- app_assoc.
    + reflexivity.
  - intros req primary fallback. rewrite read_run, Hks.
    fold primary fallback.
    now destruct (legacySameSiteCookie config).
  - intros name c v k Hdec.
    destruct (decode_first_match mac deserialize name c allKeys v k Hdec)
      as (sv & tag & pre & post & H1 & H2 & H3 & H4 & _).
    exists sv, tag, pre, post. auto.
  - intros req s v Hin Hv Hfree Hround Hcookie.
    rewrite read_run, Hks, Hcookie.
    rewrite (getCookieValue_encode mac serialize deserialize key v
               (signing s) allKeys (in_map signing _ s Hin) Hfree Hround).
    destruct (legacySameSiteCookie config) eqn:Hlegacy; [|reflexivity].
    destruct Hv as [Hv|Hv]; [|discriminate].
    now rewrite (truthy_nonempty v Hv).
Qed.

End Rotation.

Lemma secret_rotation_witness :
  coherent Symbolic.signing Fixtures.config TransientStore.fresh
  /\ fst (Symbolic.read Fixtures.config "state" Fixtures.rotatedRequest
            TransientStore.fresh)
     = Returned (Some "xyz").
Proof.
  assert (Hco : coherent Symbolic.signing Fixtures.config TransientStore.fresh)
    by (intros ks H; discriminate H).
  split; [exact Hco|].
  destruct (secret_rotation Symbolic.signing Symbolic.mac Symbolic.serialize
              Symbolic.deserialize Fixtures.config "state"
              TransientStore.fresh Hco) as (_ & _ & _ & Hread).
  apply (Hread Fixtures.rotatedRequest "old-secret" "xyz").
  - simpl. auto.
  - left. discriminate.
  - reflexivity.
  - reflexivity.
  - vm_compute. reflexivity.
Defined.

(** C4.  The rotation is as the claim says, but [read] loses a value at one
    input.  The empty value is saved with [sameSite = 'lax'] and signed
    under the first configured secret; the cookie the user agent sends back
    verifies against the configured keys, to the empty string; and yet, with
    [legacySameSiteCookie] enabled, [read] returns [undefined], the [!value]
    test taking the verified empty string for a missing cookie.  The sibling
    paths read it back: the same request read with the legacy cookie
    disabled, and the value saved with [sameSite = 'none'], which [read]
    recovers through the fallback cookie. *)
Lemma rotation_empty_value_unreadable :
  fst Fixtures.savedEmpty = Returned ""
  /\ getCookies (Fixtures.requestAfter Fixtures.savedEmpty) !! "state"
     = Some (SignedCookies.encode Symbolic.mac Symbolic.serialize "state" ""
               (Symbolic.signing "current-secret"))
  /\ Symbolic.getCookieValue "state"
       (getCookies (Fixtures.requestAfter Fixtures.savedEmpty) !! "state")
       (map Symbolic.signing (TransientStore.secrets Fixtures.config))
     = Some ""
  /\ fst (Symbolic.read Fixtures.config "state"
            (Fixtures.requestAfter Fixtures.savedEmpty)
            (snd Fixtures.savedEmpty))
     = Returned None
  /\ fst (Symbolic.read Scenarios.withoutLegacy "state"
            (Fixtures.requestAfter Fixtures.savedEmpty)
            (snd Fixtures.savedEmpty))
     = Returned (Some "")
  /\ fst (Symbolic.read Fixtures.config "state"
            (Fixtures.requestAfter Scenarios.savedEmptyNone)
            (snd Scenarios.savedEmptyNone))
     = Returned (Some "").
Proof. vm_compute. repeat split. Qed.

(** ** The logout handler *)

Section LogoutClaims.
Context {Session : Type}.
Variable isAuthenticated : Session -> bool.
Variable getIdToken : Session -> option string.
Variable delete : Session -> Session.
Variable endSessionUrl : gmap string (option string) -> outcome string.
Variable isURL : string -> bool.
Variable urlJoin : string -> string -> string.
Variable config : Config.

Abbreviation handleLogout :=
  (Logout.logoutHandlerFactory isAuthenticated getIdToken delete endSessionUrl
     isURL urlJoin config).
Abbreviation returnURLOf :=
  (fun options : option Logout.LogoutOptions =>
     Logout.resolveReturnURL isURL urlJoin config
       (default Logout.noOptions options)).
Abbreviation paramsOf :=
  (fun (options : option Logout.LogoutOptions) (s : Session) =>
     Logout.endSessionParams (default Logout.noOptions options)
       (returnURLOf options) (getIdToken s)).

(** What the handler does, branch by branch. *)
Lemma handleLogout_run (options : option Logout.LogoutOptions)
  (w : Logout.World Session) :
  let s := Logout.session w in
  let world s' new :=
    {| Logout.session := s'; Logout.calls := Logout.calls w ++ new |} in
  handleLogout options w =
    if isAuthenticated s then
      if idpLogout config then
        match endSessionUrl (paramsOf options s) with
        | Returned url =>
            (Returned tt,
             world (delete s)
               [ Logout.IsAuthenticated; Logout.GetIdToken; Logout.Delete;
                 Logout.EndSessionUrl (paramsOf options s);
                 Logout.Res (Redirect url) ])
        | Thrown e =>
            (Thrown e,
             world (delete s)
               [ Logout.IsAuthenticated; Logout.GetIdToken; Logout.Delete;
                 Logout.EndSessionUrl (paramsOf options s) ])
        end
      else
        (Returned tt,
         world (delete s)
           [ Logout.IsAuthenticated; Logout.GetIdToken; Logout.Delete;
             Logout.Res (Redirect (returnURLOf options)) ])
    else
      (Returned tt,
       world s [ Logout.IsAuthenticated;
                 Logout.Res (Redirect (returnURLOf options)) ]).
Proof.
  intros s world. subst world.
  unfold Logout.logoutHandlerFactory, Logout.sessionCache_isAuthenticated,
    Logout.sessionCache_getIdToken, Logout.sessionCache_delete,
    Logout.client_endSessionUrl, Logout.redirect,
    Eff.bind, Eff.modify, Eff.get, Eff.ret, Eff.await,
    Logout.log, Logout.on_session.
  cbn [Logout.session Logout.calls]. fold s.
  destruct (isAuthenticated s); cbn [negb].
  - destruct (idpLogout config); cbn [negb].
    + destruct (endSessionUrl _);
        cbn [Logout.session Logout.calls];
        now rewrite <- ?app_assoc.
    + cbn [Logout.session Logout.calls]. now rewrite <- ?app_assoc.
  - cbn [Logout.session Logout.calls]. now rewrite <- ?app_assoc.
Qed.

(** C7.  When the session reports the user as authenticated, the handler
    asks for the ID token, deletes the local session, and only then does
    anything else: every call to [client.endSessionUrl] it makes comes
    after [sessionCache.delete].  Whatever the outcome, and in particular
    when building the end-session URL fails, the session it leaves behind is
    the deleted one. *)
Theorem logout_deletes_before_end_session
  (options : option Logout.LogoutOptions) (w : Logout.World Session) :
  isAuthenticated (Logout.session w) = true ->
  let r := handleLogout options w in
  Logout.session (snd r) = delete (Logout.session w)
  /\ (exists tail : list Logout.Call,
        Logout.calls (snd r) =
          Logout.calls w ++
            [ Logout.IsAuthenticated; Logout.GetIdToken; Logout.Delete ]
            ++ tail
        /\ (Logout.Delete ∉ tail))
  /\ (forall e : string,
        idpLogout config = true ->
        endSessionUrl (paramsOf options (Logout.session w)) = Thrown e ->
        r = (Thrown e,
             {| Logout.session := delete (Logout.session w);
                Logout.calls :=
                  Logout.calls w ++
                    [ Logout.IsAuthenticated; Logout.GetIdToken;
                      Logout.Delete;
                      Logout.EndSessionUrl
                        (paramsOf options (Logout.session w)) ] |})).
Proof.
  intros Hauth r. subst r. rewrite handleLogout_run, Hauth.
  destruct (idpLogout config).
  - destruct (endSessionUrl _) as [url|e0] eqn:Hend; cbn [fst snd].
    + split; [reflexivity|]. split.
      * eexists [_; _]. split; [reflexivity|].
        rewrite !elem_of_cons, elem_of_nil. intros [H|[H|[]]]; discriminate H.
      * intros e _ [=].
    + split; [reflexivity|]. split.
      * eexists [_]. split; [reflexivity|].
        rewrite !elem_of_cons, elem_of_nil. intros [H|[]]; discriminate H.
      * intros e _ [= <-]. reflexivity.
  - cbn [fst snd]. split; [reflexivity|]. split.
    + eexists [_]. split; [reflexivity|].
      rewrite !elem_of_cons, elem_of_nil. intros [H|[]]; discriminate H.
    + intros e [=].
Qed.

(** C8.  When the session reports the user as not authenticated, the
    handler returns after a single redirect to the resolved return URL; the
    session is left as it was and [sessionCache.delete] is not called.
    Logging out again does the same. *)
Theorem logout_unauthenticated_redirects
  (options : option Logout.LogoutOptions) (w : Logout.World Session) :
  isAuthenticated (Logout.session w) = false ->
  let url := returnURLOf options in
  let once := [ Logout.IsAuthenticated; Logout.Res (Redirect url) ] in
  handleLogout options w =
    (Returned tt,
     {| Logout.session := Logout.session w;
        Logout.calls := Logout.calls w ++ once |})
  /\ (Logout.Delete ∉ once)
  /\ handleLogout options (snd (handleLogout options w)) =
       (Returned tt,
        {| Logout.session := Logout.session w;
           Logout.calls := Logout.calls w ++ once ++ once |}).
Proof.
  intros Hauth url once.
  assert (Hrun : handleLogout options w =
            (Returned tt,
             {| Logout.session := Logout.session w;
                Logout.calls := Logout.calls w ++ once |})).
  { rewrite handleLogout_run, Hauth. reflexivity. }
  split; [exact Hrun|]. split.
  - subst once. rewrite !elem_of_cons, elem_of_nil.
    intros [H|[H|[]]]; discriminate H.
  - rewrite Hrun. cbn [snd]. rewrite handleLogout_run.
    cbn [Logout.session Logout.calls]. rewrite Hauth.
    now rewrite <- app_assoc.
Qed.

End LogoutClaims.

Lemma logout_deletes_before_end_session_witness :
  Fixtures.isAuthenticated
    (Logout.session
       {| Logout.session := Some "id-token"; Logout.calls := [] |}) = true
  /\ Fixtures.handleLogout None
       {| Logout.session := Some "id-token"; Logout.calls := [] |}
     = (Thrown "end_session_endpoint must be configured on the issuer",
        {| Logout.session := None;
           Logout.calls :=
             [ Logout.IsAuthenticated; Logout.GetIdToken; Logout.Delete;
               Logout.EndSessionUrl
                 (<["id_token_hint" := Some "id-token"]>
                    {[ "post_logout_redirect_uri" :=
                         Some "http://www.acme.com/" ]}) ] |}).
Proof.
  split; [reflexivity|].
  exact (proj2 (proj2 (logout_deletes_before_end_session
                         Fixtures.isAuthenticated Fixtures.getIdToken
                         Fixtures.delete Fixtures.failingEndSessionUrl
                         Fixtures.isURL Fixtures.urlJoin Fixtures.config None
                         {| Logout.session := Some "id-token";
                            Logout.calls := [] |} eq_refl))
           _ eq_refl eq_refl).
Defined.

Lemma logout_unauthenticated_redirects_witness :
  Fixtures.isAuthenticated
    (Logout.session {| Logout.session := None; Logout.calls := [] |}) = false
  /\ Fixtures.handleLogout None
       {| Logout.session := None; Logout.calls := [] |}
     = (Returned tt,
        {| Logout.session := None;
           Logout.calls :=
             [ Logout.IsAuthenticated;
               Logout.Res (Redirect "http://www.acme.com/") ] |}).
Proof.
  split; [reflexivity|].
  exact (proj1 (logout_unauthenticated_redirects
                  Fixtures.isAuthenticated Fixtures.getIdToken
                  Fixtures.delete Fixtures.failingEndSessionUrl
                  Fixtures.isURL Fixtures.urlJoin Fixtures.config None
                  {| Logout.session := None; Logout.calls := [] |} eq_refl)).
Defined.

(** ** The login handler *)

Lemma firstParam_first (name v : string) (pre rest : list (string * string)) :
  Login.firstParam name pre = None ->
  Login.firstParam name (pre ++ (name, v) :: rest) = Some v.
Proof.
  induction pre as [|[k x] pre IH]; simpl.
  - intros _. now rewrite String.eqb_refl.
  - destruct (String.eqb k name); [discriminate|]. exact IH.
Qed.

Lemma isAlpha_not_slash (c : ascii) :
  Login.isAlpha c = true -> Ascii.eqb c "/" = false.
Proof.
  intros H. destruct (Ascii.eqb_spec c "/") as [->|]; [|reflexivity].
  discriminate H.
Qed.

Lemma absolute_not_path_relative (s : string) :
  Login.isAbsoluteURL s = true -> Login.isPathRelative s = false.
Proof.
  destruct s as [|c r]; simpl; [discriminate|].
  intros H. apply andb_prop in H as [Hc _].
  now rewrite (isAlpha_not_slash c Hc).
Qed.

Section LoginClaims.
Context {Key : Type}.
Variable signing : string -> Key.
Variable generateCookieValue : string -> string -> option Key -> outcome string.
Variable encodeState : gmap string string -> string.
Variable codeChallenge : string -> string.
Variable authorizationUrl : gmap string string -> string.
Variable config : Config.
Variable clientID : string.
Variable configParams : gmap string string.
Variable callback : string.

Abbreviation resolveReturnTo := (Login.resolveReturnTo config configParams).
Abbreviation buildLoginState := (Login.buildLoginState config configParams).
Abbreviation accumulatedState :=
  (Login.accumulatedState config configParams).
Abbreviation redirectURI := (Login.redirectURI config configParams).
Abbreviation authorizationRequest :=
  (Login.authorizationRequest codeChallenge clientID configParams callback).
Abbreviation handleLogin :=
  (Login.handleLogin signing generateCookieValue encodeState codeChallenge
     authorizationUrl config clientID configParams callback).

(** C5.  When the querystring of a login request holds a [returnTo]
    parameter, only its first occurrence is considered: what comes before and
    after it in the querystring does not matter.  A path-relative value is
    honored, resolved against the origin of the effective redirect URI: the
    [redirect_uri] the caller passes in [authorizationParams], else the one
    of the configuration (in both cases the one the authorization request
    carries), else the base URL.  An absolute URL is rejected and treated as
    absent: the return URL is then what the caller's explicit option says
    and nothing else, so that without one the login state has no
    [returnTo]. *)
Theorem login_query_returnTo
  (pre rest : list (string * string)) (v : string)
  (options : Login.LoginOptions) (nonce state verifier : string) :
  Login.firstParam "returnTo" pre = None ->
  let query := pre ++ ("returnTo", v) :: rest in
  Login.firstParam "returnTo" query = Some v
  /\ resolveReturnTo query options = resolveReturnTo [("returnTo", v)] options
  /\ resolveReturnTo query options =
       match Login.returnTo options with
       | Some r => Some r
       | None =>
           if Login.isPathRelative v
           then Some (Login.originOf (redirectURI options) +:+ v)
           else None
       end
  /\ (Login.isAbsoluteURL v = true ->
      resolveReturnTo query options = Login.returnTo options
      /\ accumulatedState query options !! "returnTo" = Login.returnTo options
      /\ (Login.returnTo options = None ->
          Login.getLoginState options = None ->
          buildLoginState query options = Returned ∅))
  /\ (forall u : string,
        (Login.authorizationParams options ∪ configParams) !! "redirect_uri"
          = Some u ->
        redirectURI options = u
        /\ authorizationRequest options nonce state verifier !! "redirect_uri"
           = Some u)
  /\ ((Login.authorizationParams options ∪ configParams) !! "redirect_uri"
        = None ->
      redirectURI options = baseURL config).
Proof.
  intros Hpre query.
  pose proof (firstParam_first "returnTo" v pre rest Hpre) as Hfirst.
  fold query in Hfirst.
  assert (Hres : resolveReturnTo query options =
            match Login.returnTo options with
            | Some r => Some r
            | None =>
                if Login.isPathRelative v
                then Some (Login.originOf (redirectURI options) +:+ v)
                else None
            end).
  { unfold Login.resolveReturnTo. now rewrite Hfirst. }
  split; [exact Hfirst|]. split; [|split; [exact Hres|split; [|split]]].
  - rewrite Hres. unfold Login.resolveReturnTo. reflexivity.
  - intros Habs.
    rewrite (absolute_not_path_relative v Habs) in Hres.
    assert (Hopt : resolveReturnTo query options = Login.returnTo options)
      by (rewrite Hres; now destruct (Login.returnTo options)).
    split; [exact Hopt|]. split.
    + unfold Login.accumulatedState. rewrite Hopt.
      destruct (Login.returnTo options);
        [apply lookup_singleton_eq | apply lookup_empty].
    + intros Hnone Hhook.
      unfold Login.buildLoginState, Login.accumulatedState.
      now rewrite Hopt, Hnone, Hhook.
  - intros u Hu. unfold Login.redirectURI, Login.mergedParams.
    rewrite Hu. split; [reflexivity|].
    unfold Login.authorizationRequest, Login.mergedParams.
    rewrite !lookup_insert_ne by discriminate.
    now apply lookup_union_Some_l.
  - intros Hnone. unfold Login.redirectURI, Login.mergedParams.
    now rewrite Hnone.
Qed.

(** C6.  When the caller's custom state hook returns anything but a
    mapping, the login attempt fails: the handler answers with status 500
    and a status text naming the custom-state cause, and the store and the
    response are left untouched, so no transient cookie was written and no
    redirect was issued. *)
Theorem login_rejects_non_mapping_state
  (query : list (string * string)) (options : Login.LoginOptions)
  (nonce verifier : string) (w : TransientStore.World Key)
  (hook : gmap string string -> Login.JsValue) :
  Login.getLoginState options = Some hook ->
  Login.isMapping (hook (accumulatedState query options)) = false ->
  handleLogin query options nonce verifier w =
    (Returned {| Login.status := 500;
        Login.statusText :=
          "Login handler failed. CAUSE: Custom state value must be an object"
     |}, w).
Proof.
  intros Hhook Hnot.
  unfold Login.handleLogin, Login.login, Eff.catch.
  unfold Eff.bind at 1. unfold Eff.bind at 1.
  unfold Eff.await, Login.buildLoginState. rewrite Hhook.
  destruct (hook (accumulatedState query options));
    try reflexivity; discriminate Hnot.
Qed.

End LoginClaims.

Lemma login_query_returnTo_witness :
  Login.firstParam "returnTo" [] = None
  /\ Fixtures.resolveReturnTo [("returnTo", "/foo"); ("returnTo", "/bar")]
       Fixtures.noOptions
     = Some "http://www.acme.com/foo".
Proof.
  split; [reflexivity|].
  exact (proj1 (proj2 (proj2 (login_query_returnTo
                                Fixtures.codeChallenge Fixtures.config
                                "__test_client_id__" ∅
                                "http://www.acme.com/api/auth/callback"
                                [] [("returnTo", "/bar")] "/foo"
                                Fixtures.noOptions "nonce-1" "state-1"
                                "verifier-1" eq_refl)))).
Defined.

Lemma login_rejects_non_mapping_state_witness :
  Login.getLoginState Fixtures.badHook = Some (fun _ => Login.JNumber 1)
  /\ Login.isMapping (Login.JNumber 1) = false
  /\ Fixtures.handleLogin [] Fixtures.badHook "nonce-1" "verifier-1"
       TransientStore.fresh
     = (Returned {| Login.status := 500;
           Login.statusText :=
             "Login handler failed. CAUSE: Custom state value must be an object"
        |}, TransientStore.fresh).
Proof.
  split; [reflexivity|]. split; [reflexivity|].
  exact (login_rejects_non_mapping_state
           Symbolic.signing Symbolic.generateCookieValue
           Fixtures.encodeState Fixtures.codeChallenge
           Fixtures.authorizationUrl Fixtures.config "__test_client_id__" ∅
           "http://www.acme.com/api/auth/callback"
           [] Fixtures.badHook "nonce-1" "verifier-1" TransientStore.fresh
           (fun _ => Login.JNumber 1) eq_refl eq_refl).
Defined.

(** The expectations of the handler's tests, replayed on the model. *)
Example login_absolute_returnTo_rejected :
  Fixtures.buildLoginState [("returnTo", "https://evil.com")]
    Fixtures.noOptions = Returned ∅.
Proof. reflexivity. Qed.

Example login_first_returnTo_taken :
  Fixtures.resolveReturnTo [("returnTo", "/foo"); ("returnTo", "bar")]
    Fixtures.noOptions = Some "http://www.acme.com/foo".
Proof. reflexivity. Qed.

Example login_default_returnTo :
  Fixtures.resolveReturnTo [] Fixtures.noOptions = Some "http://www.acme.com/".
Proof. reflexivity. Qed.

Example login_returnTo_against_redirect_uri :
  Login.resolveReturnTo Fixtures.config ∅ [("returnTo", "/bar")]
    Fixtures.otherOrg = Some "https://other-org.acme.com/bar".
Proof. reflexivity. Qed.

Example login_returnTo_against_configured_redirect_uri :
  Login.resolveReturnTo Fixtures.config Fixtures.otherOrgParams
    [("returnTo", "/bar")] Fixtures.noOptions
  = Some "https://other-org.acme.com/bar".
Proof. reflexivity. Qed.

Example login_sets_cookies_and_redirects :
  exists cvn cvs cvv : string,
    Fixtures.handleLogin [("returnTo", "/from-query")] Fixtures.noOptions
      "nonce-1" "verifier-1" TransientStore.fresh
    = (Returned {| Login.status := 302; Login.statusText := "Found" |},
       {| TransientStore.keys :=
            Some ["hkdf(current-secret)"; "hkdf(old-secret)"];
          TransientStore.res :=
            [ SetCookie "nonce" cvn
                (TransientStore.primaryAttr Fixtures.config SameSiteLax);
              SetCookie "state" cvs
                (TransientStore.primaryAttr Fixtures.config SameSiteLax);
              SetCookie "code_verifier" cvv
                (TransientStore.primaryAttr Fixtures.config SameSiteLax);
              Redirect
                "https://acme.auth0.local/authorize?state=state(http://www.acme.com/from-query)"
            ] |}).
Proof. eexists _, _, _. vm_compute. reflexivity. Qed.

(** * Further properties *)

(** ** The transient store: composed runs *)

Lemma cookieJar_app (a b : list ResCall) (jar : gmap string string) :
  cookieJar (a ++ b) jar = cookieJar b (cookieJar a jar).
Proof.
  revert jar. induction a as [|c a IH]; intros jar; [reflexivity|].
  destruct c; simpl; apply IH.
Qed.

Lemma since_extend {Key} (w : TransientStore.World Key)
  (ks : option (list Key)) (new : list ResCall) :
  since w {| TransientStore.keys := ks;
             TransientStore.res := TransientStore.res w ++ new |} = new.
Proof. unfold since. simpl. apply drop_app_length. Qed.

Section StoreRuns.
Context {Key : Type}.
Variable signing : string -> Key.
Variable generateCookieValue : string -> string -> option Key -> outcome string.
Variable getCookieValue : string -> option string -> list Key -> option string.
Variable config : Config.

Abbreviation saveR := (TransientStore.save signing generateCookieValue config).
Abbreviation readR := (TransientStore.read signing getCookieValue config).
Abbreviation fbR := TransientStore.fallbackName.
Abbreviation keysR := (keysOf signing config).
Abbreviation warmedR := (warmed signing config).

Lemma since_warmed (w : TransientStore.World Key) : since w (warmedR w) = [].
Proof.
  unfold since, warmed. cbn [TransientStore.res]. apply drop_all.
Qed.

Lemma since_call1 (w : TransientStore.World Key) (c : ResCall) :
  since w (TransientStore.call c (warmedR w)) = [c].
Proof. unfold TransientStore.call, warmed. simpl. apply since_extend. Qed.

Lemma since_call2 (w : TransientStore.World Key) (c1 c2 : ResCall) :
  since w (TransientStore.call c2 (TransientStore.call c1 (warmedR w)))
  = [c1; c2].
Proof.
  unfold TransientStore.call, warmed. simpl. rewrite <- app_assoc.
  apply since_extend.
Qed.

Lemma keysOf_filled (ks : list Key) (r : list ResCall) :
  keysR {| TransientStore.keys := Some ks; TransientStore.res := r |} = ks.
Proof. reflexivity. Qed.

(** The key cache is an invariant of the store: once the store is coherent,
    every [save] and every [read] leaves a cache that holds exactly the keys
    derived from the configured secrets, one per secret and in their order, so
    the store stays coherent. *)
Theorem store_keeps_key_cache
  (key : string) (opts : StoreOptions) (req : Auth0Request)
  (w : TransientStore.World Key) :
  coherent signing config w ->
  let ks := map signing (TransientStore.secrets config) in
  TransientStore.keys (snd (saveR key opts w)) = Some ks
  /\ TransientStore.keys (snd (readR key req w)) = Some ks
  /\ length ks = length (TransientStore.secrets config)
  /\ coherent signing config (snd (saveR key opts w))
  /\ coherent signing config (snd (readR key req w)).
Proof.
  intros Hco ks. pose proof (keysOf_coherent signing config w Hco) as Hks.
  assert (Hsave : TransientStore.keys (snd (saveR key opts w)) = Some ks).
  { rewrite save_run.
    destruct (generateCookieValue key _ _); [|simpl; now rewrite Hks].
    destruct (_ && _).
    - destruct (generateCookieValue (fbR key) _ _); simpl; now rewrite Hks.
    - simpl. now rewrite Hks. }
  assert (Hread : TransientStore.keys (snd (readR key req w)) = Some ks).
  { rewrite read_run. destruct (legacySameSiteCookie config);
      simpl; now rewrite Hks. }
  split; [exact Hsave|]. split; [exact Hread|].
  split; [apply length_map|].
  split; intros ks' Hks';
    [rewrite Hsave in Hks' | rewrite Hread in Hks'];
    injection Hks' as <-; reflexivity.
Qed.

(** Unless [sameSite] is ['none'] and the legacy cookie is enabled, [save]
    writes the primary cookie and nothing else: one [setCookie] call, no
    fallback cookie, and only the primary value needs to be signed. *)
Theorem save_single_cookie
  (key : string) (opts : StoreOptions) (w : TransientStore.World Key)
  (cv : string) :
  generateCookieValue key (value opts) (head (keysR w)) = Returned cv ->
  default SameSiteNone (sameSite opts) <> SameSiteNone
  \/ legacySameSiteCookie config = false ->
  saveR key opts w =
    (Returned (value opts),
     {| TransientStore.keys := Some (keysR w);
        TransientStore.res :=
          TransientStore.res w ++
            [ SetCookie key cv
                (TransientStore.primaryAttr config
                   (default SameSiteNone (sameSite opts))) ] |}).
Proof.
  intros Hcv Hno. rewrite save_run, Hcv.
  assert (Hcond : bool_decide (default SameSiteNone (sameSite opts)
                               = SameSiteNone)
                  && legacySameSiteCookie config = false).
  { destruct Hno as [Hne| ->].
    - now rewrite bool_decide_eq_false_2.
    - apply andb_false_r. }
  rewrite Hcond. reflexivity.
Qed.

(** When signing the primary value fails, [save] fails with the same error
    and has not touched the response: no cookie is set.  Only the key cache
    has been filled. *)
Theorem save_signing_failure
  (key : string) (opts : StoreOptions) (w : TransientStore.World Key)
  (e : string) :
  generateCookieValue key (value opts) (head (keysR w)) = Thrown e ->
  saveR key opts w =
    (Thrown e,
     {| TransientStore.keys := Some (keysR w);
        TransientStore.res := TransientStore.res w |}).
Proof. intros He. rewrite save_run, He. reflexivity. Qed.

(** With the legacy cookie disabled, [read] is about the primary cookie
    alone: it returns what verifying [cookies[key]] gives, makes the single
    call [clearCookie(key, cookieConfig)], and a user agent keeps whatever
    fallback cookie [_key] it holds. *)
Theorem read_without_legacy
  (key : string) (req : Auth0Request) (w : TransientStore.World Key) :
  legacySameSiteCookie config = false ->
  readR key req w =
    (Returned (getCookieValue key (getCookies req !! key) (keysR w)),
     {| TransientStore.keys := Some (keysR w);
        TransientStore.res :=
          TransientStore.res w ++ [ ClearCookie key (session_cookie config) ]
     |})
  /\ getCookies (nextRequest (getCookies req) w (snd (readR key req w)))
       !! fbR key
     = getCookies req !! fbR key.
Proof.
  intros Hlegacy. rewrite read_run, Hlegacy. split; [reflexivity|].
  unfold nextRequest. cbn [snd getCookies]. rewrite since_call1. simpl.
  apply lookup_delete_ne. intros H. symmetry in H.
  exact (fallbackName_neq key H).
Qed.

(** With the legacy cookie enabled, whenever the primary cookie yields
    nothing truthy (it is missing, does not verify, or verifies to the empty
    string), [read] returns what verifying the fallback cookie [_key], under
    the name [_key], gives. *)
Theorem read_falls_back
  (key : string) (req : Auth0Request) (w : TransientStore.World Key) :
  legacySameSiteCookie config = true ->
  truthy (getCookieValue key (getCookies req !! key) (keysR w)) = false ->
  fst (readR key req w) =
    Returned (getCookieValue (fbR key) (getCookies req !! fbR key) (keysR w)).
Proof.
  intros Hlegacy Hfalsy. rewrite read_run, Hlegacy, Hfalsy. reflexivity.
Qed.

End StoreRuns.

(** ** The transient store and the user agent *)

Section StoreJar.
Context {Key : Type}.
Variable signing : string -> Key.
Variable generateCookieValue : string -> string -> option Key -> outcome string.
Variable getCookieValue : string -> option string -> list Key -> option string.
Variable config : Config.

Abbreviation saveJ := (TransientStore.save signing generateCookieValue config).
Abbreviation readJ := (TransientStore.read signing getCookieValue config).
Abbreviation fbJ := TransientStore.fallbackName.
Abbreviation keysJ := (keysOf signing config).

Abbreviation roundTripsJ :=
  (roundTrips generateCookieValue getCookieValue).

Ltac frame_calls :=
  repeat (constructor;
          [split; [reflexivity
                  |first [left; reflexivity | right; reflexivity]]|]);
  constructor.

(** [save] only sets cookies, and only [key] and [_key]: whatever the
    outcome of signing, it never clears a cookie nor redirects, and in the
    user agent every cookie of another name is left as it was. *)
Theorem save_frame
  (key : string) (opts : StoreOptions) (w : TransientStore.World Key)
  (jar : gmap string string) :
  let new := since w (snd (saveJ key opts w)) in
  Forall (fun c => isSetCookie c = true
                   /\ (cookieOf c = Some key \/ cookieOf c = Some (fbJ key)))
    new
  /\ forall name : string,
       name <> key -> name <> fbJ key ->
       cookieJar new jar !! name = jar !! name.
Proof.
  intros new. subst new. rewrite save_run.
  destruct (generateCookieValue key _ _) as [cv|e].
  - destruct (_ && _).
    + destruct (generateCookieValue (fbJ key) _ _) as [cv'|e]; cbn [snd].
      * rewrite since_call2. split.
        -- frame_calls.
        -- intros name Hk Hf. simpl.
           rewrite lookup_insert_ne by congruence.
           now rewrite lookup_insert_ne by congruence.
      * rewrite since_call1. split.
        -- frame_calls.
        -- intros name Hk Hf. simpl.
           now rewrite lookup_insert_ne by congruence.
    + cbn [snd]. rewrite since_call1. split.
      * frame_calls.
      * intros name Hk Hf. simpl.
        now rewrite lookup_insert_ne by congruence.
  - cbn [snd]. rewrite since_warmed. split; [constructor|reflexivity].
Qed.

(** [read] only clears cookies, and only [key] and [_key]: it never sets a
    cookie nor redirects, and in the user agent every cookie of another name
    is left as it was. *)
Theorem read_frame
  (key : string) (req : Auth0Request) (w : TransientStore.World Key)
  (jar : gmap string string) :
  let new := since w (snd (readJ key req w)) in
  Forall (fun c => isClearCookie c = true
                   /\ (cookieOf c = Some key \/ cookieOf c = Some (fbJ key)))
    new
  /\ forall name : string,
       name <> key -> name <> fbJ key ->
       cookieJar new jar !! name = jar !! name.
Proof.
  intros new. subst new. rewrite read_run.
  destruct (legacySameSiteCookie config); cbn [snd].
  - rewrite since_call2. split.
    + frame_calls.
    + intros name Hk Hf. simpl.
      rewrite lookup_delete_ne by congruence.
      now rewrite lookup_delete_ne by congruence.
  - rewrite since_call1. split.
    + frame_calls.
    + intros name Hk Hf. simpl.
      now rewrite lookup_delete_ne by congruence.
Qed.

(** Round trip through the user agent: when the codec reads back what it
    writes, a non-empty value that was saved under [key] is what [read]
    returns for the request the user agent sends next, whatever [sameSite]
    was asked for and whether or not the legacy cookie is enabled. *)
Theorem save_then_read
  (key : string) (opts : StoreOptions) (w : TransientStore.World Key)
  (jar : gmap string string) :
  value opts <> "" ->
  roundTripsJ (keysJ w) (value opts) ->
  let w1 := snd (saveJ key opts w) in
  fst (saveJ key opts w) = Returned (value opts)
  /\ fst (readJ key (nextRequest jar w w1) w1) = Returned (Some (value opts)).
Proof.
  intros Hv Hcodec w1. subst w1.
  destruct (Hcodec key) as (cv & Hs & Hr).
  destruct (Hcodec (fbJ key)) as (cv' & Hs' & _).
  rewrite save_run, Hs.
  destruct (_ && _).
  - rewrite Hs'. cbn [fst snd]. split; [reflexivity|].
    rewrite read_run. unfold nextRequest. rewrite since_call2.
    unfold TransientStore.call, warmed.
    cbn [TransientStore.keys TransientStore.res getCookies cookieJar].
    rewrite keysOf_filled.
    rewrite lookup_insert_ne by apply fallbackName_neq.
    rewrite lookup_insert_eq, Hr, (truthy_nonempty _ Hv).
    now destruct (legacySameSiteCookie config).
  - cbn [fst snd]. split; [reflexivity|].
    rewrite read_run. unfold nextRequest. rewrite since_call1.
    unfold TransientStore.call, warmed.
    cbn [TransientStore.keys TransientStore.res getCookies cookieJar].
    rewrite keysOf_filled.
    rewrite lookup_insert_eq, Hr, (truthy_nonempty _ Hv).
    now destruct (legacySameSiteCookie config).
Qed.

(** A transient cookie is single-use: once [read] has run, the user agent
    holds neither the primary cookie nor, with the legacy cookie enabled, the
    fallback, and (the codec finding nothing in a missing cookie) a second
    [read] of the same key returns [undefined]. *)
Theorem read_consumes
  (key : string) (req : Auth0Request) (w : TransientStore.World Key) :
  (forall name : string, getCookieValue name None (keysJ w) = None) ->
  let w1 := snd (readJ key req w) in
  let req2 := nextRequest (getCookies req) w w1 in
  getCookies req2 !! key = None
  /\ (legacySameSiteCookie config = true -> getCookies req2 !! fbJ key = None)
  /\ fst (readJ key req2 w1) = Returned None.
Proof.
  intros Hnone w1 req2. subst req2 w1. rewrite read_run.
  destruct (legacySameSiteCookie config) eqn:Hlegacy; cbn [snd].
  - unfold nextRequest. rewrite since_call2.
    cbn [getCookies cookieJar].
    assert (Hk : base.delete (fbJ key)
                   (base.delete key (getCookies req)) !! key = None).
    { rewrite lookup_delete_ne by apply fallbackName_neq.
      apply lookup_delete_eq. }
    assert (Hf : base.delete (fbJ key)
                   (base.delete key (getCookies req)) !! fbJ key = None)
      by apply lookup_delete_eq.
    split; [exact Hk|]. split; [intros _; exact Hf|].
    rewrite read_run, Hlegacy. cbn [getCookies fst].
    unfold TransientStore.call, warmed.
    cbn [TransientStore.keys TransientStore.res].
    rewrite keysOf_filled, Hk, Hf, !Hnone. reflexivity.
  - unfold nextRequest. rewrite since_call1.
    cbn [getCookies cookieJar].
    assert (Hk : base.delete key (getCookies req) !! key = None)
      by apply lookup_delete_eq.
    split; [exact Hk|]. split; [discriminate|].
    rewrite read_run, Hlegacy. cbn [getCookies fst].
    unfold TransientStore.call, warmed.
    cbn [TransientStore.keys TransientStore.res].
    rewrite keysOf_filled, Hk, Hnone. reflexivity.
Qed.



End StoreJar.

(** ** The logout handler: outcomes, parameters, repetition *)

Lemma madeSince_extend {Session} (w : Logout.World Session) (s : Session)
  (new : list Logout.Call) :
  madeSince w {| Logout.session := s;
                 Logout.calls := Logout.calls w ++ new |} = new.
Proof. unfold madeSince. simpl. apply drop_app_length. Qed.

Section LogoutRuns.
Context {Session : Type}.
Variable isAuthenticated : Session -> bool.
Variable getIdToken : Session -> option string.
Variable delete : Session -> Session.
Variable endSessionUrl : gmap string (option string) -> outcome string.
Variable isURL : string -> bool.
Variable urlJoin : string -> string -> string.
Variable config : Config.

Abbreviation logoutL :=
  (Logout.logoutHandlerFactory isAuthenticated getIdToken delete endSessionUrl
     isURL urlJoin config).
Abbreviation returnURLL :=
  (fun options : option Logout.LogoutOptions =>
     Logout.resolveReturnURL isURL urlJoin config
       (default Logout.noOptions options)).
Abbreviation paramsL :=
  (fun (options : option Logout.LogoutOptions) (s : Session) =>
     Logout.endSessionParams (default Logout.noOptions options)
       (returnURLL options) (getIdToken s)).

(** With [idpLogout] disabled the logout is local: whatever the session,
    the handler returns without an error, never calls
    [client.endSessionUrl], and its one redirect goes to the resolved return
    URL. *)
Theorem logout_local_only
  (options : option Logout.LogoutOptions) (w : Logout.World Session) :
  idpLogout config = false ->
  let r := logoutL options w in
  fst r = Returned tt
  /\ List.filter isEndSessionUrl (madeSince w (snd r)) = []
  /\ List.filter isRedirect (madeSince w (snd r))
     = [ Logout.Res (Redirect (returnURLL options)) ].
Proof.
  intros Hidp r. subst r. rewrite handleLogout_run, Hidp.
  destruct (isAuthenticated (Logout.session w)); cbn [fst snd];
    rewrite madeSince_extend; auto.
Qed.

(** An identity-provider logout that succeeds: the handler asks the client
    for the end-session URL and redirects to what it returns.  The parameters
    it passes hold the resolved return URL as [post_logout_redirect_uri] and
    the ID token the session held before it was deleted as [id_token_hint];
    the caller's [logoutParams] cannot override these two, and all its other
    entries are passed on unchanged. *)
Theorem logout_end_session_params
  (options : option Logout.LogoutOptions) (w : Logout.World Session)
  (url : string) :
  isAuthenticated (Logout.session w) = true ->
  idpLogout config = true ->
  endSessionUrl (paramsL options (Logout.session w)) = Returned url ->
  let params := paramsL options (Logout.session w) in
  logoutL options w =
    (Returned tt,
     {| Logout.session := delete (Logout.session w);
        Logout.calls :=
          Logout.calls w ++
            [ Logout.IsAuthenticated; Logout.GetIdToken; Logout.Delete;
              Logout.EndSessionUrl params; Logout.Res (Redirect url) ] |})
  /\ params !! "post_logout_redirect_uri" = Some (Some (returnURLL options))
  /\ params !! "id_token_hint" = Some (getIdToken (Logout.session w))
  /\ forall k : string,
       k <> "post_logout_redirect_uri" -> k <> "id_token_hint" ->
       params !! k =
         default ∅ (Logout.logoutParams (default Logout.noOptions options))
           !! k.
Proof.
  intros Hauth Hidp Hurl params.
  split; [rewrite handleLogout_run, Hauth, Hidp, Hurl; reflexivity|].
  subst params. unfold Logout.endSessionParams.
  split; [|split].
  - rewrite lookup_insert_ne by discriminate. apply lookup_insert_eq.
  - apply lookup_insert_eq.
  - intros k Hk1 Hk2.
    rewrite lookup_insert_ne by congruence.
    now rewrite lookup_insert_ne by congruence.
Qed.

(** The handler redirects exactly once when it returns and not at all when
    it fails; and it fails only in one way: the session was authenticated,
    [idpLogout] is enabled, and [client.endSessionUrl] threw the error the
    handler rethrows. *)
Theorem logout_redirects_once_or_fails
  (options : option Logout.LogoutOptions) (w : Logout.World Session) :
  let r := logoutL options w in
  match fst r with
  | Returned _ => redirects (madeSince w (snd r)) = 1
  | Thrown e =>
      redirects (madeSince w (snd r)) = 0
      /\ isAuthenticated (Logout.session w) = true
      /\ idpLogout config = true
      /\ endSessionUrl (paramsL options (Logout.session w)) = Thrown e
  end.
Proof.
  intros r. subst r. rewrite handleLogout_run.
  destruct (isAuthenticated (Logout.session w)); cbn [fst snd].
  - destruct (idpLogout config); cbn [fst snd].
    + destruct (endSessionUrl _) as [url|e] eqn:Hend; cbn [fst snd];
        rewrite madeSince_extend; auto.
    + rewrite madeSince_extend. reflexivity.
  - rewrite madeSince_extend. reflexivity.
Qed.

(** Logging out twice: when deleting the session makes it unauthenticated,
    a logout that follows a logout of an authenticated session, whatever the
    outcome of the first, only asks whether the session is authenticated and
    redirects to its return URL; the session is not deleted again and the
    client is not called. *)
Theorem logout_twice
  (options options' : option Logout.LogoutOptions)
  (w : Logout.World Session) :
  isAuthenticated (Logout.session w) = true ->
  isAuthenticated (delete (Logout.session w)) = false ->
  let w1 := snd (logoutL options w) in
  logoutL options' w1 =
    (Returned tt,
     {| Logout.session := delete (Logout.session w);
        Logout.calls :=
          Logout.calls w1 ++
            [ Logout.IsAuthenticated;
              Logout.Res (Redirect (returnURLL options')) ] |}).
Proof.
  intros Hauth Hdel w1. subst w1.
  rewrite (handleLogout_run _ _ _ _ _ _ _ options w), Hauth.
  destruct (idpLogout config).
  - destruct (endSessionUrl _); cbn [snd];
      rewrite handleLogout_run; cbn [Logout.session Logout.calls];
      now rewrite Hdel.
  - cbn [snd]. rewrite handleLogout_run. cbn [Logout.session Logout.calls].
    now rewrite Hdel.
Qed.

End LogoutRuns.

(** ** The transient store: several keys, several reads *)

Section StoreKeys.
Context {Key : Type}.
Variable signing : string -> Key.
Variable generateCookieValue : string -> string -> option Key -> outcome string.
Variable getCookieValue : string -> option string -> list Key -> option string.
Variable config : Config.

Abbreviation saveK := (TransientStore.save signing generateCookieValue config).
Abbreviation readK := (TransientStore.read signing getCookieValue config).
Abbreviation fbK := TransientStore.fallbackName.
Abbreviation keysK := (keysOf signing config).

Lemma save_keysOf (key : string) (opts : StoreOptions)
  (w : TransientStore.World Key) :
  keysK (snd (saveK key opts w)) = keysK w.
Proof.
  rewrite save_run.
  destruct (generateCookieValue key _ _); [|reflexivity].
  destruct (_ && _); [|reflexivity].
  destruct (generateCookieValue (fbK key) _ _); reflexivity.
Qed.

Lemma read_keysOf (key : string) (req : Auth0Request)
  (w : TransientStore.World Key) :
  keysK (snd (readK key req w)) = keysK w.
Proof. rewrite read_run. now destruct (legacySameSiteCookie config). Qed.

Lemma save_jar_other (key : string) (opts : StoreOptions)
  (w : TransientStore.World Key) (jar : gmap string string) (name : string) :
  name <> key -> name <> fbK key ->
  cookieJar (since w (snd (saveK key opts w))) jar !! name = jar !! name.
Proof.
  intros Hk Hf. rewrite save_run.
  destruct (generateCookieValue key _ _);
    [|cbn [snd]; now rewrite since_warmed].
  destruct (_ && _).
  - destruct (generateCookieValue (fbK key) _ _); cbn [snd].
    + rewrite since_call2. simpl.
      rewrite lookup_insert_ne by congruence.
      now rewrite lookup_insert_ne by congruence.
    + rewrite since_call1. simpl. now rewrite lookup_insert_ne by congruence.
  - cbn [snd]. rewrite since_call1. simpl.
    now rewrite lookup_insert_ne by congruence.
Qed.

Lemma save_jar_key (key : string) (opts : StoreOptions)
  (w : TransientStore.World Key) (jar : gmap string string) (cv : string) :
  generateCookieValue key (value opts) (head (keysK w)) = Returned cv ->
  cookieJar (since w (snd (saveK key opts w))) jar !! key = Some cv.
Proof.
  intros Hcv. rewrite save_run, Hcv.
  destruct (_ && _).
  - destruct (generateCookieValue (fbK key) _ _); cbn [snd].
    + rewrite since_call2. simpl.
      rewrite lookup_insert_ne by apply fallbackName_neq.
      apply lookup_insert_eq.
    + rewrite since_call1. simpl. apply lookup_insert_eq.
  - cbn [snd]. rewrite since_call1. simpl. apply lookup_insert_eq.
Qed.

Lemma read_value_truthy (key : string) (req : Auth0Request)
  (w : TransientStore.World Key) (v : string) :
  v <> "" ->
  getCookieValue key (getCookies req !! key) (keysK w) = Some v ->
  fst (readK key req w) = Returned (Some v).
Proof.
  intros Hv Hp. rewrite read_run, Hp, (truthy_nonempty v Hv).
  now destruct (legacySameSiteCookie config).
Qed.

(** Transient values saved under different keys do not disturb each other:
    after [save] under [key1] and then [save] under [key2], whatever the
    second does, [read] still returns the first value for [key1], provided
    [key1] is neither [key2] nor its fallback name [_key2]. *)
Theorem save_other_key_keeps_value
  (key1 key2 : string) (opts1 opts2 : StoreOptions)
  (w : TransientStore.World Key) (jar : gmap string string) :
  key1 <> key2 ->
  key1 <> fbK key2 ->
  value opts1 <> "" ->
  roundTrips generateCookieValue getCookieValue (keysK w) (value opts1) ->
  let w1 := snd (saveK key1 opts1 w) in
  let w2 := snd (saveK key2 opts2 w1) in
  let req := nextRequest (getCookies (nextRequest jar w w1)) w1 w2 in
  fst (readK key1 req w2) = Returned (Some (value opts1)).
Proof.
  intros H12 H1f Hv Hcodec w1 w2 req. subst req w2 w1.
  destruct (Hcodec key1) as (cv & Hs & Hr).
  apply read_value_truthy; [exact Hv|].
  rewrite !save_keysOf. unfold nextRequest. cbn [getCookies].
  rewrite save_jar_other by assumption.
  now rewrite (save_jar_key key1 opts1 w jar cv Hs).
Qed.

(** [read] does not consume the request: it clears the cookie on the
    response only, so a second [read] of the same key on the same request
    returns the same value again. *)
Theorem read_repeats_on_same_request
  (key : string) (req : Auth0Request) (w : TransientStore.World Key) :
  let w1 := snd (readK key req w) in
  fst (readK key req w1) = fst (readK key req w)
  /\ since w1 (snd (readK key req w1)) = since w w1.
Proof.
  intros w1. subst w1. split.
  - rewrite (read_run _ _ _ key req (snd _)), read_keysOf.
    rewrite (read_run _ _ _ key req w).
    now destruct (legacySameSiteCookie config).
  - rewrite (read_run _ _ _ key req (snd _)).
    rewrite (read_run _ _ _ key req w).
    destruct (legacySameSiteCookie config); cbn [snd].
    + rewrite since_call2.
      unfold since, TransientStore.call, warmed.
      cbn [TransientStore.res TransientStore.keys].
      rewrite <- !app_assoc. now rewrite drop_app_length.
    + rewrite since_call1.
      unfold since, TransientStore.call, warmed.
      cbn [TransientStore.res TransientStore.keys].
      now rewrite drop_app_length.
Qed.

End StoreKeys.

(** ** The further properties at work on the fixtures *)

Lemma head_In {A} (l : list A) (x : A) : head l = Some x -> In x l.
Proof. destruct l; [discriminate|]. intros [= ->]. now left. Qed.

(** The symbolic codec reads back what it writes, for payloads without a
    separator. *)
Lemma symbolic_roundTrips (ks : list string) (k v : string) :
  head ks = Some k ->
  SignedCookies.separator_free v = true ->
  roundTrips Symbolic.generateCookieValue Symbolic.getCookieValue ks v.
Proof.
  intros Hk Hfree name. rewrite Hk.
  exists (SignedCookies.encode Symbolic.mac Symbolic.serialize name v k).
  split; [reflexivity|].
  apply (getCookieValue_encode Symbolic.mac Symbolic.serialize
           Symbolic.deserialize name v k ks (head_In ks k Hk) Hfree eq_refl).
Qed.

Lemma store_keeps_key_cache_witness :
  coherent Symbolic.signing Fixtures.config TransientStore.fresh
  /\ TransientStore.keys
       (snd (Symbolic.save Fixtures.config "nonce" (Scenarios.laxOpts "abc")
               TransientStore.fresh))
     = Some ["hkdf(current-secret)"; "hkdf(old-secret)"].
Proof.
  assert (Hco : coherent Symbolic.signing Fixtures.config TransientStore.fresh)
    by (intros ks H; discriminate H).
  split; [exact Hco|].
  exact (proj1 (store_keeps_key_cache
                  Symbolic.signing Symbolic.generateCookieValue
                  Symbolic.getCookieValue Fixtures.config "nonce"
                  (Scenarios.laxOpts "abc") {| getCookies := ∅ |}
                  TransientStore.fresh Hco)).
Defined.

Lemma save_single_cookie_witness :
  Symbolic.generateCookieValue "nonce" "abc"
    (head (keysOf Symbolic.signing Fixtures.config TransientStore.fresh))
  = Returned "abc.hs256(hkdf(current-secret),nonce=abc)"
  /\ (default SameSiteNone (sameSite (Scenarios.laxOpts "abc")) <> SameSiteNone
      \/ legacySameSiteCookie Fixtures.config = false)
  /\ TransientStore.res
       (snd (Symbolic.save Fixtures.config "nonce" (Scenarios.laxOpts "abc")
               TransientStore.fresh))
     = [ SetCookie "nonce" "abc.hs256(hkdf(current-secret),nonce=abc)"
           (TransientStore.primaryAttr Fixtures.config SameSiteLax) ].
Proof.
  assert (Hno : default SameSiteNone (sameSite (Scenarios.laxOpts "abc"))
                <> SameSiteNone
                \/ legacySameSiteCookie Fixtures.config = false)
    by (left; discriminate).
  split; [reflexivity|]. split; [exact Hno|].
  exact (f_equal (fun r => TransientStore.res (snd r))
           (save_single_cookie
              Symbolic.signing Symbolic.generateCookieValue Fixtures.config
              "nonce" (Scenarios.laxOpts "abc") TransientStore.fresh
              "abc.hs256(hkdf(current-secret),nonce=abc)" eq_refl Hno)).
Defined.

Lemma save_signing_failure_witness :
  Symbolic.generateCookieValue "nonce" "abc"
    (head (keysOf Symbolic.signing Scenarios.noSecrets TransientStore.fresh))
  = Thrown "Key must be one of type Uint8Array"
  /\ Symbolic.save Scenarios.noSecrets "nonce" (Scenarios.noneOpts "abc")
       TransientStore.fresh
     = (Thrown "Key must be one of type Uint8Array",
        {| TransientStore.keys := Some []; TransientStore.res := [] |}).
Proof.
  split; [reflexivity|].
  exact (save_signing_failure
           Symbolic.signing Symbolic.generateCookieValue Scenarios.noSecrets
           "nonce" (Scenarios.noneOpts "abc") TransientStore.fresh
           "Key must be one of type Uint8Array" eq_refl).
Defined.

Lemma read_without_legacy_witness :
  legacySameSiteCookie Scenarios.plain = false
  /\ Symbolic.read Scenarios.plain "nonce"
       {| getCookies :=
            {[ "nonce" := "abc.hs256(hkdf(current-secret),nonce=abc)" ]} |}
       TransientStore.fresh
     = (Returned (Some "abc"),
        {| TransientStore.keys := Some ["hkdf(current-secret)"];
           TransientStore.res := [ ClearCookie "nonce" Fixtures.cookie ] |}).
Proof.
  split; [reflexivity|].
  exact (proj1 (read_without_legacy
                  Symbolic.signing Symbolic.getCookieValue Scenarios.plain
                  "nonce"
                  {| getCookies :=
                       {[ "nonce" :=
                            "abc.hs256(hkdf(current-secret),nonce=abc)" ]} |}
                  TransientStore.fresh eq_refl)).
Defined.

Lemma read_falls_back_witness :
  legacySameSiteCookie Fixtures.config = true
  /\ truthy
       (Symbolic.getCookieValue "nonce"
          (getCookies
             {| getCookies :=
                  {[ "_nonce" :=
                       "abc.hs256(hkdf(current-secret),_nonce=abc)" ]} |}
           !! "nonce")
          (keysOf Symbolic.signing Fixtures.config TransientStore.fresh))
     = false
  /\ fst (Symbolic.read Fixtures.config "nonce"
            {| getCookies :=
                 {[ "_nonce" :=
                      "abc.hs256(hkdf(current-secret),_nonce=abc)" ]} |}
            TransientStore.fresh)
     = Returned (Some "abc").
Proof.
  split; [reflexivity|]. split; [reflexivity|].
  exact (read_falls_back
           Symbolic.signing Symbolic.getCookieValue Fixtures.config "nonce"
           {| getCookies :=
                {[ "_nonce" :=
                     "abc.hs256(hkdf(current-secret),_nonce=abc)" ]} |}
           TransientStore.fresh eq_refl eq_refl).
Defined.

Lemma save_then_read_witness :
  value (Scenarios.noneOpts "abc") <> ""
  /\ roundTrips Symbolic.generateCookieValue Symbolic.getCookieValue
       (keysOf Symbolic.signing Fixtures.config TransientStore.fresh)
       (value (Scenarios.noneOpts "abc"))
  /\ fst (Symbolic.read Fixtures.config "nonce"
            (nextRequest ∅ TransientStore.fresh
               (snd (Symbolic.save Fixtures.config "nonce"
                       (Scenarios.noneOpts "abc") TransientStore.fresh)))
            (snd (Symbolic.save Fixtures.config "nonce"
                    (Scenarios.noneOpts "abc") TransientStore.fresh)))
     = Returned (Some "abc").
Proof.
  assert (Hv : value (Scenarios.noneOpts "abc") <> "") by discriminate.
  assert (Hrt : roundTrips Symbolic.generateCookieValue
                  Symbolic.getCookieValue
                  (keysOf Symbolic.signing Fixtures.config
                     TransientStore.fresh)
                  (value (Scenarios.noneOpts "abc")))
    by (apply (symbolic_roundTrips _ "hkdf(current-secret)"); reflexivity).
  split; [exact Hv|]. split; [exact Hrt|].
  exact (proj2 (save_then_read
                  Symbolic.signing Symbolic.generateCookieValue
                  Symbolic.getCookieValue Fixtures.config "nonce"
                  (Scenarios.noneOpts "abc") TransientStore.fresh ∅ Hv Hrt)).
Defined.

Lemma read_consumes_witness :
  (forall name : string,
      Symbolic.getCookieValue name None
        (keysOf Symbolic.signing Fixtures.config TransientStore.fresh) = None)
  /\ fst (Symbolic.read Fixtures.config "state"
            (nextRequest (getCookies Fixtures.rotatedRequest)
               TransientStore.fresh
               (snd (Symbolic.read Fixtures.config "state"
                       Fixtures.rotatedRequest TransientStore.fresh)))
            (snd (Symbolic.read Fixtures.config "state"
                    Fixtures.rotatedRequest TransientStore.fresh)))
     = Returned None.
Proof.
  assert (Hnone : forall name : string,
             Symbolic.getCookieValue name None
               (keysOf Symbolic.signing Fixtures.config TransientStore.fresh)
             = None) by reflexivity.
  split; [exact Hnone|].
  exact (proj2 (proj2 (read_consumes
                         Symbolic.signing Symbolic.getCookieValue
                         Fixtures.config "state" Fixtures.rotatedRequest
                         TransientStore.fresh Hnone))).
Defined.



Lemma save_other_key_keeps_value_witness :
  "nonce" <> "state"
  /\ "nonce" <> TransientStore.fallbackName "state"
  /\ value (Scenarios.laxOpts "abc") <> ""
  /\ roundTrips Symbolic.generateCookieValue Symbolic.getCookieValue
       (keysOf Symbolic.signing Fixtures.config TransientStore.fresh)
       (value (Scenarios.laxOpts "abc"))
  /\ fst (Symbolic.read Fixtures.config "nonce"
            (nextRequest
               (getCookies
                  (nextRequest ∅ TransientStore.fresh
                     (snd (Symbolic.save Fixtures.config "nonce"
                             (Scenarios.laxOpts "abc")
                             TransientStore.fresh))))
               (snd (Symbolic.save Fixtures.config "nonce"
                       (Scenarios.laxOpts "abc") TransientStore.fresh))
               (snd (Symbolic.save Fixtures.config "state"
                       (Scenarios.laxOpts "xyz")
                       (snd (Symbolic.save Fixtures.config "nonce"
                               (Scenarios.laxOpts "abc")
                               TransientStore.fresh)))))
            (snd (Symbolic.save Fixtures.config "state"
                    (Scenarios.laxOpts "xyz")
                    (snd (Symbolic.save Fixtures.config "nonce"
                            (Scenarios.laxOpts "abc")
                            TransientStore.fresh)))))
     = Returned (Some "abc").
Proof.
  assert (H12 : "nonce" <> "state") by discriminate.
  assert (H1f : "nonce" <> TransientStore.fallbackName "state")
    by discriminate.
  assert (Hv : value (Scenarios.laxOpts "abc") <> "") by discriminate.
  assert (Hrt : roundTrips Symbolic.generateCookieValue
                  Symbolic.getCookieValue
                  (keysOf Symbolic.signing Fixtures.config
                     TransientStore.fresh)
                  (value (Scenarios.laxOpts "abc")))
    by (apply (symbolic_roundTrips _ "hkdf(current-secret)"); reflexivity).
  split; [exact H12|]. split; [exact H1f|]. split; [exact Hv|].
  split; [exact Hrt|].
  exact (save_other_key_keeps_value
           Symbolic.signing Symbolic.generateCookieValue
           Symbolic.getCookieValue Fixtures.config "nonce" "state"
           (Scenarios.laxOpts "abc") (Scenarios.laxOpts "xyz")
           TransientStore.fresh ∅ H12 H1f Hv Hrt).
Defined.

Lemma logout_local_only_witness :
  idpLogout Scenarios.plain = false
  /\ fst (Scenarios.logout Scenarios.plain None Scenarios.loggedIn)
     = Returned tt
  /\ List.filter isRedirect
       (madeSince Scenarios.loggedIn
          (snd (Scenarios.logout Scenarios.plain None Scenarios.loggedIn)))
     = [ Logout.Res (Redirect "http://www.acme.com//bye") ].
Proof.
  split; [reflexivity|].
  destruct (logout_local_only
              Fixtures.isAuthenticated Fixtures.getIdToken Fixtures.delete
              Scenarios.endSessionUrl Fixtures.isURL Fixtures.urlJoin
              Scenarios.plain None Scenarios.loggedIn eq_refl)
    as (Hret & _ & Hredirect).
  split; [exact Hret | exact Hredirect].
Defined.

Lemma logout_end_session_params_witness :
  Fixtures.isAuthenticated (Logout.session Scenarios.loggedIn) = true
  /\ idpLogout Fixtures.config = true
  /\ Scenarios.endSessionUrl
       (<["id_token_hint" := Some "id-token"]>
          {[ "post_logout_redirect_uri" := Some "http://www.acme.com/" ]})
     = Returned
         "https://acme.auth0.local/v2/logout?post_logout_redirect_uri=http://www.acme.com/"
  /\ Scenarios.logout Fixtures.config None Scenarios.loggedIn
     = (Returned tt,
        {| Logout.session := None;
           Logout.calls :=
             [ Logout.IsAuthenticated; Logout.GetIdToken; Logout.Delete;
               Logout.EndSessionUrl
                 (<["id_token_hint" := Some "id-token"]>
                    {[ "post_logout_redirect_uri" :=
                         Some "http://www.acme.com/" ]});
               Logout.Res
                 (Redirect
                    "https://acme.auth0.local/v2/logout?post_logout_redirect_uri=http://www.acme.com/")
             ] |}).
Proof.
  split; [reflexivity|]. split; [reflexivity|]. split; [reflexivity|].
  exact (proj1 (logout_end_session_params
                  Fixtures.isAuthenticated Fixtures.getIdToken Fixtures.delete
                  Scenarios.endSessionUrl Fixtures.isURL Fixtures.urlJoin
                  Fixtures.config None Scenarios.loggedIn
                  "https://acme.auth0.local/v2/logout?post_logout_redirect_uri=http://www.acme.com/"
                  eq_refl eq_refl eq_refl)).
Defined.

Lemma logout_twice_witness :
  Fixtures.isAuthenticated (Logout.session Scenarios.loggedIn) = true
  /\ Fixtures.isAuthenticated
       (Fixtures.delete (Logout.session Scenarios.loggedIn)) = false
  /\ Scenarios.failingLogout Fixtures.config None
       (snd (Scenarios.failingLogout Fixtures.config None Scenarios.loggedIn))
     = (Returned tt,
        {| Logout.session := None;
           Logout.calls :=
             Logout.calls
               (snd (Scenarios.failingLogout Fixtures.config None
                       Scenarios.loggedIn))
             ++ [ Logout.IsAuthenticated;
                  Logout.Res (Redirect "http://www.acme.com/") ] |}).
Proof.
  split; [reflexivity|]. split; [reflexivity|].
  exact (logout_twice
           Fixtures.isAuthenticated Fixtures.getIdToken Fixtures.delete
           Fixtures.failingEndSessionUrl Fixtures.isURL Fixtures.urlJoin
           Fixtures.config None None Scenarios.loggedIn eq_refl eq_refl).
Defined.
